(** * Salary dashboard: the UGC / WPU compensation engine

    A shallow embedding of [client/src/lib/salary-calculator.ts] and of the
    reference tables of [client/src/lib/ugc-data.ts], with the properties of
    the engine stated and proved over it.

    Modelling conventions.
    - The engine is embedded twice.  The definitions at top level compute
      with exact rationals ([Q]): they are the engine wherever every
      intermediate value is exactly representable, and the algebraic
      properties are stated over them.  Module [Double] is the same code
      in IEEE-754 binary64 (round to nearest even, signed zeros, NaN and
      the infinities), which is what a JavaScript [number] is; the
      properties of the rounding steps are stated over it.
    - Fields that the code copies are compared with Leibniz equality,
      computed rationals with [Qeq] where the representation may differ.
    - [Math.round] is the nearest integer with ties towards plus infinity,
      that is [floor (x + 1/2)].
    - [PAY_MATRIX] and [levelBenefits] are finite maps over their own
      keys.  The code reads them with [obj[name]], which also finds the
      properties of [Object.prototype]; module [Proto] models that lookup,
      and the properties of the lookups by level are stated over it.  The
      two agree at every name that is not a property of
      [Object.prototype].
    - An optional parameter is an [option]; an array index is an integer. *)

From Stdlib Require Import ZArith QArith Qround Qabs Qminmax Lia Lqa Bool List Ascii String.
From Stdlib Require Import SpecFloat.
From stdpp Require Import base strings gmap pretty.
Import ListNotations.

Local Open Scope Q_scope.

(** ** Numbers *)

Module JS.

(** [Math.round]. *)
Definition Math_round (x : Q) : Q := inject_Z (Qfloor (x + (1 # 2))).

(** [a > b], [a < b], [a >= b], [a <= b] on numbers. *)
Definition gt (a b : Q) : bool := negb (Qle_bool a b).
Definition lt (a b : Q) : bool := negb (Qle_bool b a).
Definition ge (a b : Q) : bool := Qle_bool b a.
Definition le (a b : Q) : bool := Qle_bool a b.

(** Characters that [parseInt] skips in front of the number (the ASCII
    part of the ECMAScript white space and line terminators). *)
Definition is_space (c : ascii) : bool :=
  let n := nat_of_ascii c in
  (n =? 32)%nat || (n =? 9)%nat || (n =? 10)%nat || (n =? 11)%nat
  || (n =? 12)%nat || (n =? 13)%nat.

Fixpoint skip_spaces (s : string) : string :=
  match s with
  | String c r => if is_space c then skip_spaces r else s
  | EmptyString => s
  end.

(** Value of a digit in the given radix (10 or 16). *)
Definition digit_value (radix : Z) (c : ascii) : option Z :=
  let n := Z.of_nat (nat_of_ascii c) in
  let v :=
    if (48 <=? n)%Z && (n <=? 57)%Z then Some (n - 48)%Z
    else if (97 <=? n)%Z && (n <=? 122)%Z then Some (n - 87)%Z
    else if (65 <=? n)%Z && (n <=? 90)%Z then Some (n - 55)%Z
    else None in
  match v with
  | Some d => if (d <? radix)%Z then Some d else None
  | None => None
  end.

(** Longest prefix of digits, as a number; [None] when there is none. *)
Fixpoint parse_digits (radix : Z) (acc : option Z) (s : string) : option Z :=
  match s with
  | String c r =>
      match digit_value radix c with
      | Some d =>
          parse_digits radix
            (Some (match acc with Some a => a * radix + d | None => d end)%Z) r
      | None => acc
      end
  | EmptyString => acc
  end.

(** [parseInt(s)] with no radix argument; [None] stands for [NaN]. *)
Definition parseInt (s : string) : option Z :=
  let s1 := skip_spaces s in
  let '(neg, s2) :=
    match s1 with
    | String "-"%char r => (true, r)
    | String "+"%char r => (false, r)
    | _ => (false, s1)
    end in
  let '(radix, s3) :=
    match s2 with
    | String "0"%char (String "x"%char r) => (16%Z, r)
    | String "0"%char (String "X"%char r) => (16%Z, r)
    | _ => (10%Z, s2)
    end in
  match parse_digits radix None s3 with
  | Some n => Some (if neg then (- n)%Z else n)
  | None => None
  end.

(** [n >= k] for a possibly-[NaN] integer [n]: false on [NaN]. *)
Definition ge_int (n : option Z) (k : Z) : bool :=
  match n with
  | Some v => (k <=? v)%Z
  | None => false
  end.

End JS.

(** ** Reference data ([ugc-data.ts]) *)

Inductive CityType := X | Y | Z_city.

Inductive FinancialStrategy :=
  | multiplier | premium | both | higher | lower.

Inductive MultiplierMethod := methodA | methodB.

Definition PAY_MATRIX : gmap string (list Q) :=
  <[ "10"%string := [
    57700; 59400; 61200; 63000; 64900; 66800; 68800; 70900;
    73000; 75200; 77500; 79800; 82200; 84700; 87200; 89800;
    92500; 95300; 98200; 101100; 104100; 107200; 110400; 113700;
    117100; 120600; 124200; 127900; 131700; 135700; 139800; 144000;
    148300; 152700; 157300; 162000; 166900; 171900; 177100; 182400 ] ]>
  (<[ "11"%string := [
    68900; 71000; 73100; 75300; 77600; 79900; 82300; 84800;
    87300; 89900; 92600; 95400; 98300; 101200; 104200; 107300;
    110500; 113800; 117200; 120700; 124300; 128000; 131800; 135800;
    139900; 144100; 148400; 152900; 157500; 162200; 167100; 172100;
    177300; 182600; 188100; 193700; 199500; 205500 ] ]>
  (<[ "12"%string := [
    79800; 82200; 84100; 87200; 89800; 92500; 95300; 98200;
    101100; 104100; 107200; 110400; 113700; 117100; 120600; 124200;
    127900; 131700; 135700; 139800; 144000; 148300; 152700; 157300;
    162000; 166900; 171900; 177100; 182400; 187900; 193500; 199300;
    205300; 211500 ] ]>
  (<[ "13A"%string := [
    131400; 135300; 139400; 143600; 147900; 152300; 156900; 161600;
    166400; 171400; 176500; 181800; 187300; 192900; 198700; 204100;
    210800; 217100 ] ]>
  (<[ "14"%string := [
    144200; 148500; 153000; 157600; 162300; 167200; 172200; 177400;
    182100; 188200; 193800; 199600; 205600; 211800; 218200 ] ]>
  (<[ "15"%string := [
    182200; 187700; 193300; 199100; 205100; 211300; 217600; 224100 ] ]>
  ∅))))).

(** [HRA_RATES[cityType].rate]. *)
Definition HRA_RATES_rate (c : CityType) : Q :=
  match c with
  | X => 30
  | Y => 20
  | Z_city => 10
  end.

Record TARate := { tptaCity : Q; otherCity : Q }.

Record TARates := { level9Plus : TARate; level3to8 : TARate; level1to2 : TARate }.

Definition TA_RATES : TARates :=
  {| level9Plus := {| tptaCity := 7200; otherCity := 3600 |};
     level3to8 := {| tptaCity := 3600; otherCity := 1800 |};
     level1to2 := {| tptaCity := 1350; otherCity := 900 |} |}.

(** ** Settings types ([settings-context]) *)

Inductive EnforcementMode := soft | hard.

Inductive HraMode := hra_percent | hra_lumpsum.

Record HraConfig := {
  providingHousing : bool;
  stillProvideHra : bool;
  cfg_hraMode : HraMode;
  lumpSumValue : Q
}.

Record PositionPremiumRange := { minPremium : Q; maxPremium : Q }.

Record PositionSalaryCap := {
  minWPUSalaryAnnual : Q;
  maxWPUSalaryAnnual : Q;
  maxWPUCTCAnnual : Q
}.

(** ** Records of the calculator ([salary-calculator.ts]) *)

Record Benefits := {
  housing : Q;
  professionalDev : Q;
  ppfPercent : Q;
  gratuityPercent : Q;
  healthInsurance : Q
}.

(** The [hraMode] tag of a breakdown: ['percent' | 'lumpsum' | 'none']. *)
Inductive BreakdownHraMode := mode_percent | mode_lumpsum | mode_none.

Record UGCSalaryBreakdown := {
  ugc_basic : Q;
  ugc_da : Q;
  ugc_hra : Q;
  ugc_hraMode : BreakdownHraMode;
  ugc_ta : Q;
  ugc_specialAllowance : Q;
  ugc_totalMonthly : Q;
  ugc_totalAnnual : Q
}.

Record EnforcementStatus := {
  salaryCapped : bool;
  salaryBelowMin : bool;
  ctcCapped : bool;
  premiumBelowMin : bool;
  premiumAboveMax : bool;
  originalSalaryAnnual : Q;
  originalCTCAnnual : Q
}.

Record BenefitsBreakdown := {
  bb_housing : Q;
  bb_professionalDev : Q;
  ppfAmount : Q;
  gratuityAmount : Q;
  bb_healthInsurance : Q;
  bb_totalMonthly : Q;
  bb_totalAnnual : Q
}.

Record WPUSalaryBreakdown := {
  basic : Q;
  da : Q;
  hra : Q;
  hraMode : BreakdownHraMode;
  ta : Q;
  specialAllowance : Q;
  multiplierBonus : Q;
  premiumMonthly : Q;
  totalSalaryMonthly : Q;
  totalSalaryAnnual : Q;
  benefits : BenefitsBreakdown;
  totalCTCMonthly : Q;
  totalCTCAnnual : Q;
  method : MultiplierMethod;
  strategy : FinancialStrategy;
  enforcement : EnforcementStatus
}.

Record ComparisonResult := {
  ugc : UGCSalaryBreakdown;
  wpu : WPUSalaryBreakdown;
  premiumAmountMonthly : Q;
  premiumAmountAnnual : Q;
  premiumPercentage : Q
}.

(** ** The baseline calculator *)

Definition getCellAmount (level : string) (cellIndex : Z) : Q :=
  match PAY_MATRIX !! level with
  | None => 0
  | Some cells =>
      if (cellIndex <? 0)%Z || (cellIndex >=? Z.of_nat (List.length cells))%Z
      then 0
      else nth (Z.to_nat cellIndex) cells 0
  end.

Definition calculateDA (basic daPercent : Q) : Q :=
  JS.Math_round (basic * (daPercent / 100)).

Definition calculateHRA (basic : Q) (cityType : CityType)
    (hraConfig : option HraConfig) : Q * BreakdownHraMode :=
  let percent :=
    let rate := HRA_RATES_rate cityType in
    (JS.Math_round (basic * (rate / 100)), mode_percent) in
  match hraConfig with
  | Some cfg =>
      if providingHousing cfg && negb (stillProvideHra cfg)
      then (0, mode_none)
      else match cfg_hraMode cfg with
           | hra_lumpsum => (lumpSumValue cfg, mode_lumpsum)
           | hra_percent => percent
           end
  | None => percent
  end.

Definition calculateTA (level : string) (daPercent : Q) (isTPTACity : bool) : Q :=
  let levelNum :=
    if String.eqb level "13A" then Some 13%Z else JS.parseInt level in
  let taBase :=
    if JS.ge_int levelNum 9 then
      if isTPTACity then tptaCity (level9Plus TA_RATES)
      else otherCity (level9Plus TA_RATES)
    else if JS.ge_int levelNum 3 then
      if isTPTACity then tptaCity (level3to8 TA_RATES)
      else otherCity (level3to8 TA_RATES)
    else
      if isTPTACity then tptaCity (level1to2 TA_RATES)
      else otherCity (level1to2 TA_RATES) in
  let daOnTA := JS.Math_round (taBase * (daPercent / 100)) in
  taBase + daOnTA.

Definition calculateUGCSalary (basic daPercent : Q) (cityType : CityType)
    (level : string) (specialAllowance : Q) (isTPTACity : bool)
    (hraConfig : option HraConfig) : UGCSalaryBreakdown :=
  let da := calculateDA basic daPercent in
  let hraResult := calculateHRA basic cityType hraConfig in
  let ta := calculateTA level daPercent isTPTACity in
  let totalMonthly := basic + da + fst hraResult + ta + specialAllowance in
  {| ugc_basic := basic;
     ugc_da := da;
     ugc_hra := fst hraResult;
     ugc_hraMode := snd hraResult;
     ugc_ta := ta;
     ugc_specialAllowance := specialAllowance;
     ugc_totalMonthly := totalMonthly;
     ugc_totalAnnual := totalMonthly * 12 |}.

Definition calculateBenefits (basic : Q) (b : Benefits) : BenefitsBreakdown :=
  let ppfAmount := JS.Math_round (basic * (ppfPercent b / 100)) in
  let gratuityAmount := JS.Math_round (basic * (gratuityPercent b / 100)) in
  let totalMonthly :=
    housing b + professionalDev b + ppfAmount + gratuityAmount
    + healthInsurance b in
  {| bb_housing := housing b;
     bb_professionalDev := professionalDev b;
     ppfAmount := ppfAmount;
     gratuityAmount := gratuityAmount;
     bb_healthInsurance := healthInsurance b;
     bb_totalMonthly := totalMonthly;
     bb_totalAnnual := totalMonthly * 12 |}.


(** ** The enhanced calculator *)

(** The salary components that [calculateWPUSalary] keeps in its local
    variables [wpuBasic], [wpuDA], [wpuHRA], [hraMode], [wpuTA]. *)
Record Components := {
  wpuBasic : Q;
  wpuDA : Q;
  wpuHRA : Q;
  c_hraMode : BreakdownHraMode;
  wpuTA : Q
}.

(** The [if (method === 'methodA') ... else ...] block: the components and
    the multiplier bonus. *)
Definition methodComponents (ugcSalary : UGCSalaryBreakdown) (multiplier : Q)
    (method : MultiplierMethod) (daPercent : Q) (cityType : CityType)
    (level : string) (specialAllowance : Q) (isTPTACity : bool)
    (hraConfig : option HraConfig) : Components * Q :=
  match method with
  | methodA =>
      let wpuBasic := ugc_basic ugcSalary in
      let wpuDA := ugc_da ugcSalary in
      let hraResult := calculateHRA (ugc_basic ugcSalary) cityType hraConfig in
      let wpuHRA := fst hraResult in
      let wpuTA := ugc_ta ugcSalary in
      let baseSalaryForMultiplier :=
        wpuBasic + wpuDA + wpuHRA + wpuTA + specialAllowance in
      ({| wpuBasic := wpuBasic; wpuDA := wpuDA; wpuHRA := wpuHRA;
          c_hraMode := snd hraResult; wpuTA := wpuTA |},
       JS.Math_round (baseSalaryForMultiplier * (multiplier - 1)))
  | methodB =>
      let wpuBasic := JS.Math_round (ugc_basic ugcSalary * multiplier) in
      let hraResult := calculateHRA wpuBasic cityType hraConfig in
      ({| wpuBasic := wpuBasic;
          wpuDA := calculateDA wpuBasic daPercent;
          wpuHRA := fst hraResult;
          c_hraMode := snd hraResult;
          wpuTA := calculateTA level daPercent isTPTACity |},
       0)
  end.

(** The assignments made on the premium path of the [switch] when the
    method is ['methodB']: the components go back to the baseline's. *)
Definition resetOnPremium (method : MultiplierMethod)
    (ugcSalary : UGCSalaryBreakdown) (c : Components) : Components :=
  match method with
  | methodB =>
      {| wpuBasic := ugc_basic ugcSalary;
         wpuDA := ugc_da ugcSalary;
         wpuHRA := ugc_hra ugcSalary;
         c_hraMode := ugc_hraMode ugcSalary;
         wpuTA := ugc_ta ugcSalary |}
  | methodA => c
  end.

(** State of the local variables after the [switch (strategy)]. *)
Record Resolved := {
  r_components : Components;
  r_totalSalaryMonthly : Q;
  actualMultiplierBonus : Q;
  actualPremiumMonthly : Q
}.

(** Everything [calculateWPUSalary] computes before the benefits and the
    enforcement block (source lines 198 to 285). *)
Definition resolveStrategy (ugcSalary : UGCSalaryBreakdown)
    (multiplier annualPremium : Q) (strategy : FinancialStrategy)
    (method : MultiplierMethod) (daPercent : Q) (cityType : CityType)
    (level : string) (specialAllowance : Q) (isTPTACity : bool)
    (hraConfig : option HraConfig) : Resolved :=
  let '(c, multiplierBonus) :=
    methodComponents ugcSalary multiplier method daPercent cityType level
      specialAllowance isTPTACity hraConfig in
  let baseSalaryMonthly :=
    wpuBasic c + wpuDA c + wpuHRA c + wpuTA c + specialAllowance
    + multiplierBonus in
  let premiumMonthly := JS.Math_round (annualPremium / 12) in
  let multiplierResult := baseSalaryMonthly in
  let premiumResult := ugc_totalMonthly ugcSalary + premiumMonthly in
  let multiplierPath :=
    {| r_components := c;
       r_totalSalaryMonthly := multiplierResult;
       actualMultiplierBonus := multiplierBonus;
       actualPremiumMonthly := 0 |} in
  let premiumPath :=
    {| r_components := resetOnPremium method ugcSalary c;
       r_totalSalaryMonthly := premiumResult;
       actualMultiplierBonus := 0;
       actualPremiumMonthly := premiumMonthly |} in
  match strategy with
  | multiplier => multiplierPath
  | premium => premiumPath
  | both =>
      {| r_components := c;
         r_totalSalaryMonthly := baseSalaryMonthly + premiumMonthly;
         actualMultiplierBonus := multiplierBonus;
         actualPremiumMonthly := premiumMonthly |}
  | higher =>
      if JS.ge multiplierResult premiumResult then multiplierPath
      else premiumPath
  | lower =>
      if JS.le multiplierResult premiumResult then multiplierPath
      else premiumPath
  end.

(** [computedMaxCTC] of the enforcement block. *)
Definition computedMaxCTC (salaryCap : PositionSalaryCap)
    (benefitsBreakdown : BenefitsBreakdown) : Q :=
  if JS.gt (maxWPUCTCAnnual salaryCap) 0 then maxWPUCTCAnnual salaryCap
  else if JS.gt (maxWPUSalaryAnnual salaryCap) 0
       then maxWPUSalaryAnnual salaryCap + bb_totalAnnual benefitsBreakdown
       else 0.

(** Outcome of the [if (salaryCap) { ... }] block: the three flags it sets
    and the two totals it may overwrite. *)
Record CapOutcome := {
  co_salaryCapped : bool;
  co_salaryBelowMin : bool;
  co_ctcCapped : bool;
  co_totalSalaryMonthly : Q;
  co_totalCTCMonthly : Q
}.

Definition applySalaryCap (enforcementMode : EnforcementMode)
    (salaryCap : option PositionSalaryCap)
    (benefitsBreakdown : BenefitsBreakdown)
    (totalSalaryMonthly totalCTCMonthly : Q) : CapOutcome :=
  match salaryCap with
  | None =>
      {| co_salaryCapped := false; co_salaryBelowMin := false;
         co_ctcCapped := false;
         co_totalSalaryMonthly := totalSalaryMonthly;
         co_totalCTCMonthly := totalCTCMonthly |}
  | Some cap =>
      let salaryBelowMin :=
        JS.gt (minWPUSalaryAnnual cap) 0
        && JS.lt (totalSalaryMonthly * 12) (minWPUSalaryAnnual cap) in
      let salaryCapped :=
        JS.gt (maxWPUSalaryAnnual cap) 0
        && JS.gt (totalSalaryMonthly * 12) (maxWPUSalaryAnnual cap) in
      let maxCTC := computedMaxCTC cap benefitsBreakdown in
      let ctcCapped :=
        JS.gt maxCTC 0 && JS.gt (totalCTCMonthly * 12) maxCTC in
      match enforcementMode with
      | hard =>
          let totalSalaryMonthly' :=
            if salaryCapped
            then JS.Math_round (maxWPUSalaryAnnual cap / 12)
            else totalSalaryMonthly in
          let totalCTCMonthly' :=
            totalSalaryMonthly' + bb_totalMonthly benefitsBreakdown in
          if JS.gt maxCTC 0 && JS.gt (totalCTCMonthly' * 12) maxCTC
          then {| co_salaryCapped := salaryCapped;
                  co_salaryBelowMin := salaryBelowMin;
                  co_ctcCapped := true;
                  co_totalSalaryMonthly := totalSalaryMonthly';
                  co_totalCTCMonthly := JS.Math_round (maxCTC / 12) |}
          else {| co_salaryCapped := salaryCapped;
                  co_salaryBelowMin := salaryBelowMin;
                  co_ctcCapped := ctcCapped;
                  co_totalSalaryMonthly := totalSalaryMonthly';
                  co_totalCTCMonthly := totalCTCMonthly' |}
      | soft =>
          {| co_salaryCapped := salaryCapped;
             co_salaryBelowMin := salaryBelowMin;
             co_ctcCapped := ctcCapped;
             co_totalSalaryMonthly := totalSalaryMonthly;
             co_totalCTCMonthly := totalCTCMonthly |}
      end
  end.

Definition calculateWPUSalary (ugcSalary : UGCSalaryBreakdown)
    (multiplier annualPremium : Q) (strategy : FinancialStrategy)
    (method : MultiplierMethod) (benefits : Benefits) (daPercent : Q)
    (cityType : CityType) (level : string) (specialAllowance : Q)
    (isTPTACity : bool) (hraConfig : option HraConfig)
    (enforcementMode : EnforcementMode)
    (premiumRange : option PositionPremiumRange)
    (salaryCap : option PositionSalaryCap) : WPUSalaryBreakdown :=
  let r :=
    resolveStrategy ugcSalary multiplier annualPremium strategy method
      daPercent cityType level specialAllowance isTPTACity hraConfig in
  let c := r_components r in
  let benefitsBreakdown := calculateBenefits (wpuBasic c) benefits in
  let totalSalaryMonthly := r_totalSalaryMonthly r in
  let totalCTCMonthly :=
    totalSalaryMonthly + bb_totalMonthly benefitsBreakdown in
  let originalSalaryAnnual := totalSalaryMonthly * 12 in
  let originalCTCAnnual := totalCTCMonthly * 12 in
  let premiumAboveMax :=
    match premiumRange with
    | Some range =>
        JS.gt (maxPremium range) 0 && JS.gt annualPremium (maxPremium range)
    | None => false
    end in
  let premiumBelowMin :=
    match premiumRange with
    | Some range =>
        JS.gt (minPremium range) 0 && JS.lt annualPremium (minPremium range)
    | None => false
    end in
  let co :=
    applySalaryCap enforcementMode salaryCap benefitsBreakdown
      totalSalaryMonthly totalCTCMonthly in
  {| basic := wpuBasic c;
     da := wpuDA c;
     hra := wpuHRA c;
     hraMode := c_hraMode c;
     ta := wpuTA c;
     specialAllowance := specialAllowance;
     multiplierBonus := actualMultiplierBonus r;
     premiumMonthly := actualPremiumMonthly r;
     totalSalaryMonthly := co_totalSalaryMonthly co;
     totalSalaryAnnual := co_totalSalaryMonthly co * 12;
     benefits := benefitsBreakdown;
     totalCTCMonthly := co_totalCTCMonthly co;
     totalCTCAnnual := co_totalCTCMonthly co * 12;
     method := method;
     strategy := strategy;
     enforcement :=
       {| salaryCapped := co_salaryCapped co;
          salaryBelowMin := co_salaryBelowMin co;
          ctcCapped := co_ctcCapped co;
          premiumBelowMin := premiumBelowMin;
          premiumAboveMax := premiumAboveMax;
          originalSalaryAnnual := originalSalaryAnnual;
          originalCTCAnnual := originalCTCAnnual |} |}.

(** ** The comparison orchestrator *)

Definition calculateComparison (level : string) (cellIndex : Z)
    (daPercent : Q) (cityType : CityType) (multiplier annualPremium : Q)
    (strategy : FinancialStrategy) (method : MultiplierMethod)
    (benefits : Benefits) (specialAllowance : Q) (isTPTACity : bool)
    (hraConfig : option HraConfig) (enforcementMode : EnforcementMode)
    (premiumRange : option PositionPremiumRange)
    (salaryCap : option PositionSalaryCap) : ComparisonResult :=
  let basic := getCellAmount level cellIndex in
  let ugc :=
    calculateUGCSalary basic daPercent cityType level specialAllowance
      isTPTACity None in
  let wpu :=
    calculateWPUSalary ugc multiplier annualPremium strategy method benefits
      daPercent cityType level specialAllowance isTPTACity hraConfig
      enforcementMode premiumRange salaryCap in
  let premiumAmountMonthly := totalCTCMonthly wpu - ugc_totalMonthly ugc in
  let premiumAmountAnnual := premiumAmountMonthly * 12 in
  let premiumPercentage :=
    if JS.gt (ugc_totalMonthly ugc) 0
    then (premiumAmountMonthly / ugc_totalMonthly ugc) * 100
    else 0 in
  {| ugc := ugc;
     wpu := wpu;
     premiumAmountMonthly := premiumAmountMonthly;
     premiumAmountAnnual := premiumAmountAnnual;
     premiumPercentage := premiumPercentage |}.

(** ** Auxiliary definitions for the statements *)

(** The monthly salary before enforcement: the value of
    [totalSalaryMonthly] when [calculateWPUSalary] leaves its [switch]. *)
Definition preTotal (ugcSalary : UGCSalaryBreakdown)
    (multiplier annualPremium : Q) (strategy : FinancialStrategy)
    (method : MultiplierMethod) (daPercent : Q) (cityType : CityType)
    (level : string) (specialAllowance : Q) (isTPTACity : bool)
    (hraConfig : option HraConfig) : Q :=
  r_totalSalaryMonthly
    (resolveStrategy ugcSalary multiplier annualPremium strategy method
       daPercent cityType level specialAllowance isTPTACity hraConfig).

(** The monthly cost to company before enforcement: the first value of
    [totalCTCMonthly]. *)
Definition preCTC (ugcSalary : UGCSalaryBreakdown)
    (multiplier annualPremium : Q) (strategy : FinancialStrategy)
    (method : MultiplierMethod) (benefits : Benefits) (daPercent : Q)
    (cityType : CityType) (level : string) (specialAllowance : Q)
    (isTPTACity : bool) (hraConfig : option HraConfig) : Q :=
  let r :=
    resolveStrategy ugcSalary multiplier annualPremium strategy method
      daPercent cityType level specialAllowance isTPTACity hraConfig in
  r_totalSalaryMonthly r
  + bb_totalMonthly (calculateBenefits (wpuBasic (r_components r)) benefits).

(** A whole number: the image of an integer. *)
Definition whole (x : Q) : Prop := exists z : Z, x == inject_Z z.



(** Concrete inputs used in the scenarios. *)
Definition zeroBenefits : Benefits :=
  {| housing := 0; professionalDev := 0; ppfPercent := 0;
     gratuityPercent := 0; healthInsurance := 0 |}.

Definition housingOnly : Benefits :=
  {| housing := 1000; professionalDev := 0; ppfPercent := 0;
     gratuityPercent := 0; healthInsurance := 0 |}.

Definition scenario1 : UGCSalaryBreakdown :=
  calculateUGCSalary 57700 58 Y "10" 0 false None.

(** The default salary cap of the assistant-professor positions. *)
Definition cap2300000 : PositionSalaryCap :=
  {| minWPUSalaryAnnual := 1500000;
     maxWPUSalaryAnnual := 2300000;
     maxWPUCTCAnnual := 0 |}.

(** A baseline whose annual total is exactly 2600000. *)
Definition baseline2600000 : UGCSalaryBreakdown :=
  {| ugc_basic := 650000 # 3;
     ugc_da := 0;
     ugc_hra := 0;
     ugc_hraMode := mode_percent;
     ugc_ta := 0;
     ugc_specialAllowance := 0;
     ugc_totalMonthly := 650000 # 3;
     ugc_totalAnnual := 2600000 |}.

Definition cap1300733 : PositionSalaryCap :=
  {| minWPUSalaryAnnual := 0;
     maxWPUSalaryAnnual := 1300733;
     maxWPUCTCAnnual := 0 |}.

(** A configuration with university housing and a lump-sum HRA on top. *)
Definition lumpSumConfig : HraConfig :=
  {| providingHousing := true; stillProvideHra := true;
     cfg_hraMode := hra_lumpsum; lumpSumValue := 5000 |}.

(** ** Further reference data ([ugc-data.ts]) *)

Record AcademicLevel := {
  al_level : string;
  al_agp : option Q;
  payBand : string;
  entryPay : Q;
  rationalisedEntryPay : Q;
  ior : Q;
  maxCells : Z
}.

Definition ACADEMIC_LEVELS : list AcademicLevel :=
  [ {| al_level := "10"; al_agp := Some 6000; payBand := "15,600-39,100";
       entryPay := 21600; rationalisedEntryPay := 57700; ior := 267 # 100;
       maxCells := 40 |};
    {| al_level := "11"; al_agp := Some 7000; payBand := "15,600-39,100";
       entryPay := 25790; rationalisedEntryPay := 68900; ior := 267 # 100;
       maxCells := 38 |};
    {| al_level := "12"; al_agp := Some 8000; payBand := "15,600-39,100";
       entryPay := 29900; rationalisedEntryPay := 79800; ior := 267 # 100;
       maxCells := 34 |};
    {| al_level := "13A"; al_agp := Some 9000; payBand := "37,400-67,000";
       entryPay := 49200; rationalisedEntryPay := 131400; ior := 267 # 100;
       maxCells := 18 |};
    {| al_level := "14"; al_agp := Some 10000; payBand := "37,400-67,000";
       entryPay := 53000; rationalisedEntryPay := 144200; ior := 272 # 100;
       maxCells := 15 |};
    {| al_level := "15"; al_agp := None; payBand := "67,000-79,000";
       entryPay := 67000; rationalisedEntryPay := 182200; ior := 272 # 100;
       maxCells := 8 |} ].

Record FacultyPosition := {
  fp_id : Z;
  fp_title : string;
  fp_shortTitle : string;
  fp_level : string;
  fp_agp : option Q;
  fp_specialAllowance : Q;
  fp_typicalExperience : string;
  fp_minExperience : Z;
  fp_maxExperience : Z
}.

Definition FACULTY_POSITIONS : list FacultyPosition :=
  [ {| fp_id := 1; fp_title := "Assistant Professor (Entry Level)";
       fp_shortTitle := "Asst Prof (L10)"; fp_level := "10";
       fp_agp := Some 6000; fp_specialAllowance := 0;
       fp_typicalExperience := "0-4 years";
       fp_minExperience := 0; fp_maxExperience := 39 |};
    {| fp_id := 2; fp_title := "Assistant Professor (Senior Scale)";
       fp_shortTitle := "Asst Prof (L11)"; fp_level := "11";
       fp_agp := Some 7000; fp_specialAllowance := 0;
       fp_typicalExperience := "4-8 years";
       fp_minExperience := 0; fp_maxExperience := 37 |};
    {| fp_id := 3; fp_title := "Assistant Professor (Selection Grade)";
       fp_shortTitle := "Asst Prof (L12)"; fp_level := "12";
       fp_agp := Some 8000; fp_specialAllowance := 0;
       fp_typicalExperience := "8-12 years";
       fp_minExperience := 0; fp_maxExperience := 33 |};
    {| fp_id := 4; fp_title := "Associate Professor";
       fp_shortTitle := "Assoc Prof (L13A)"; fp_level := "13A";
       fp_agp := Some 9000; fp_specialAllowance := 0;
       fp_typicalExperience := "12-15 years";
       fp_minExperience := 0; fp_maxExperience := 17 |};
    {| fp_id := 5; fp_title := "Professor";
       fp_shortTitle := "Prof (L14)"; fp_level := "14";
       fp_agp := Some 10000; fp_specialAllowance := 0;
       fp_typicalExperience := "15-20 years";
       fp_minExperience := 0; fp_maxExperience := 14 |};
    {| fp_id := 6; fp_title := "Professor (HAG Scale)";
       fp_shortTitle := "Prof HAG (L15)"; fp_level := "15";
       fp_agp := None; fp_specialAllowance := 0;
       fp_typicalExperience := "20+ years";
       fp_minExperience := 0; fp_maxExperience := 7 |};
    {| fp_id := 7; fp_title := "Principal (UG College)";
       fp_shortTitle := "Principal UG"; fp_level := "13A";
       fp_agp := Some 9000; fp_specialAllowance := 2000;
       fp_typicalExperience := "12-15 years";
       fp_minExperience := 0; fp_maxExperience := 17 |};
    {| fp_id := 8; fp_title := "Principal (PG College)";
       fp_shortTitle := "Principal PG"; fp_level := "14";
       fp_agp := Some 10000; fp_specialAllowance := 3000;
       fp_typicalExperience := "15-20 years";
       fp_minExperience := 0; fp_maxExperience := 14 |} ].

(** [FACULTY_POSITIONS.find(p => p.id === positionId)], as the pages call
    it; [None] stands for [undefined]. *)
Definition findPosition (positionId : Z) : option FacultyPosition :=
  List.find (fun p => (fp_id p =? positionId)%Z) FACULTY_POSITIONS.

(** ** Further functions of [salary-calculator.ts] *)

(** An element of the array that [getCellsForLevel] returns. *)
Record CellRow := { cell : Z; amount : Q; experience : string }.

Definition getCellsForLevel (level : string) : list CellRow :=
  match PAY_MATRIX !! level with
  | None => []
  | Some cells =>
      imap (fun (idx : nat) (amount0 : Q) =>
              {| cell := Z.of_nat idx + 1;
                 amount := amount0;
                 experience :=
                   (pretty idx ++ " yr"
                    ++ (if (idx =? 1)%nat then "" else "s") ++ " exp")%string |})
        cells
  end.

Definition suggestCellFromExperience (level : string)
    (yearsOfExperience : Z) : Z :=
  match PAY_MATRIX !! level with
  | None => 0%Z
  | Some cells =>
      let cellIndex :=
        Z.min yearsOfExperience (Z.of_nat (List.length cells) - 1) in
      Z.max 0 cellIndex
  end.

Definition getLevelInfo (level : string) : option AcademicLevel :=
  List.find (fun l => String.eqb (al_level l) level) ACADEMIC_LEVELS.

(** ** The settings store ([settings-context]) *)

Inductive TooltipMode := detailed | concise.

Inductive WpuBasePay := base7th | base8th | baseBoth.

Inductive BenefitsSource := source_position | source_level | source_global.

Record GlobalSettings := {
  multiplierMethod : MultiplierMethod;
  baseMultiplier : Q;
  daPercentage : Q;
  gs_cityType : CityType;
  gs_isTPTACity : bool;
  financialStrategy : FinancialStrategy;
  gs_annualPremium : Q;
  tooltipMode : TooltipMode;
  globalBenefits : Benefits;
  levelBenefits : gmap string Benefits;
  positionBenefits : gmap Z Benefits;
  gs_enforcementMode : EnforcementMode;
  positionPremiumRanges : gmap Z PositionPremiumRange;
  positionSalaryCaps : gmap Z PositionSalaryCap;
  gs_hraConfig : HraConfig;
  eighthCpcFitmentFactor : Q;
  eighthCpcDaPercent : Q;
  wpuBasePay : WpuBasePay
}.

Definition DEFAULT_GLOBAL_BENEFITS : Benefits :=
  {| housing := 36250; professionalDev := 8333; ppfPercent := 12;
     gratuityPercent := 481 # 100; healthInsurance := 1250 |}.

Definition levelBenefitsWithHousing (h : Q) : Benefits :=
  {| housing := h; professionalDev := 8333; ppfPercent := 12;
     gratuityPercent := 481 # 100; healthInsurance := 1250 |}.

Definition DEFAULT_LEVEL_BENEFITS : gmap string Benefits :=
  <[ "10"%string := levelBenefitsWithHousing 36250 ]>
  (<[ "11"%string := levelBenefitsWithHousing 36250 ]>
  (<[ "12"%string := levelBenefitsWithHousing 36250 ]>
  (<[ "13A"%string := levelBenefitsWithHousing 40417 ]>
  (<[ "14"%string := levelBenefitsWithHousing 54167 ]>
  (<[ "15"%string := levelBenefitsWithHousing 54167 ]> ∅))))).

Definition DEFAULT_HRA_CONFIG : HraConfig :=
  {| providingHousing := true; stillProvideHra := false;
     cfg_hraMode := hra_percent; lumpSumValue := 0 |}.

Definition salaryRange (lo hi : Q) : PositionSalaryCap :=
  {| minWPUSalaryAnnual := lo; maxWPUSalaryAnnual := hi;
     maxWPUCTCAnnual := 0 |}.

Definition DEFAULT_POSITION_SALARY_CAPS : gmap Z PositionSalaryCap :=
  <[ 1%Z := salaryRange 1500000 2300000 ]>
  (<[ 2%Z := salaryRange 1500000 2300000 ]>
  (<[ 3%Z := salaryRange 1500000 2300000 ]>
  (<[ 4%Z := salaryRange 2200000 3200000 ]>
  (<[ 5%Z := salaryRange 3200000 4200000 ]>
  (<[ 6%Z := salaryRange 3200000 4200000 ]> ∅))))).

Definition DEFAULT_SETTINGS : GlobalSettings :=
  {| multiplierMethod := methodA;
     baseMultiplier := 13 # 10;
     daPercentage := 58;
     gs_cityType := Y;
     gs_isTPTACity := false;
     financialStrategy := multiplier;
     gs_annualPremium := 300000;
     tooltipMode := detailed;
     globalBenefits := DEFAULT_GLOBAL_BENEFITS;
     levelBenefits := DEFAULT_LEVEL_BENEFITS;
     positionBenefits := ∅;
     gs_enforcementMode := soft;
     positionPremiumRanges := ∅;
     positionSalaryCaps := DEFAULT_POSITION_SALARY_CAPS;
     gs_hraConfig := DEFAULT_HRA_CONFIG;
     eighthCpcFitmentFactor := 228 # 100;
     eighthCpcDaPercent := 0;
     wpuBasePay := base7th |}.

Definition getBenefitsForPosition (settings : GlobalSettings)
    (positionId : Z) (level : string) : Benefits :=
  match positionBenefits settings !! positionId with
  | Some b => b
  | None =>
      match levelBenefits settings !! level with
      | Some b => b
      | None => globalBenefits settings
      end
  end.

Definition getBenefitsSource (settings : GlobalSettings)
    (positionId : Z) (level : string) : BenefitsSource :=
  match positionBenefits settings !! positionId with
  | Some _ => source_position
  | None =>
      match levelBenefits settings !! level with
      | Some _ => source_level
      | None => source_global
      end
  end.

(** [{ ...prev, positionBenefits: m }]. *)
Definition withPositionBenefits (prev : GlobalSettings)
    (m : gmap Z Benefits) : GlobalSettings :=
  {| multiplierMethod := multiplierMethod prev;
     baseMultiplier := baseMultiplier prev;
     daPercentage := daPercentage prev;
     gs_cityType := gs_cityType prev;
     gs_isTPTACity := gs_isTPTACity prev;
     financialStrategy := financialStrategy prev;
     gs_annualPremium := gs_annualPremium prev;
     tooltipMode := tooltipMode prev;
     globalBenefits := globalBenefits prev;
     levelBenefits := levelBenefits prev;
     positionBenefits := m;
     gs_enforcementMode := gs_enforcementMode prev;
     positionPremiumRanges := positionPremiumRanges prev;
     positionSalaryCaps := positionSalaryCaps prev;
     gs_hraConfig := gs_hraConfig prev;
     eighthCpcFitmentFactor := eighthCpcFitmentFactor prev;
     eighthCpcDaPercent := eighthCpcDaPercent prev;
     wpuBasePay := wpuBasePay prev |}.

(** The state update of [setBenefitsForPosition]: the function it hands
    to [setSettings] (the write to local storage is not modelled). *)
Definition setBenefitsForPosition (positionId : Z) (b : Benefits)
    (prev : GlobalSettings) : GlobalSettings :=
  withPositionBenefits prev (<[ positionId := b ]> (positionBenefits prev)).

(** The state update of [clearPositionBenefits]. *)
Definition clearPositionBenefits (positionId : Z)
    (prev : GlobalSettings) : GlobalSettings :=
  withPositionBenefits prev (delete positionId (positionBenefits prev)).

(** ** The bulk hiring page *)








(** ** The all-positions comparison page *)

(** The state update of [togglePosition] on the set of visible positions. *)
Definition togglePosition (id0 : Z) (prev : gset Z) : gset Z :=
  if decide (id0 ∈ prev)
  then (if decide (1 < size prev)%nat then prev ∖ {[ id0 ]} else prev)
  else prev ∪ {[ id0 ]}.

(** ** Helpers for the statements *)

(** [{ ...w, strategy: s }]. *)
Definition withStrategy (w : WPUSalaryBreakdown) (s : FinancialStrategy)
    : WPUSalaryBreakdown :=
  {| basic := basic w; da := da w; hra := hra w; hraMode := hraMode w;
     ta := ta w; specialAllowance := specialAllowance w;
     multiplierBonus := multiplierBonus w;
     premiumMonthly := premiumMonthly w;
     totalSalaryMonthly := totalSalaryMonthly w;
     totalSalaryAnnual := totalSalaryAnnual w;
     benefits := benefits w;
     totalCTCMonthly := totalCTCMonthly w;
     totalCTCAnnual := totalCTCAnnual w;
     method := method w; strategy := s;
     enforcement := enforcement w |}.

(** Consecutive elements strictly increase. *)
Fixpoint increasingb (l : list Q) : bool :=
  match l with
  | a :: (b :: _) as rest => JS.lt a b && increasingb rest
  | _ => true
  end.

(** ** Property lookup through the prototype chain

    [PAY_MATRIX] and [settings.levelBenefits] are plain objects, and the
    code reads them with [obj[name]]: a name that is not an own key is
    looked up in [Object.prototype].  The definitions above take the own
    keys only; the ones of this module follow the prototype chain and say
    what the code returns at inherited names ([undefined], [NaN], or a
    thrown [TypeError]).  [Object.prototype] is the one ECMAScript defines
    (with Annex B), unmodified. *)

Module Proto.

(** What [Object.prototype] holds under a name: a method, with its
    [length], or under [__proto__] the prototype object itself, which has
    no [length]. *)
Inductive Inherited :=
  | inherited_function (arity : Z)
  | inherited_prototype.

Definition Object_prototype_properties : list (string * Inherited) :=
  [ ("constructor"%string, inherited_function 1);
    ("__defineGetter__"%string, inherited_function 2);
    ("__defineSetter__"%string, inherited_function 2);
    ("hasOwnProperty"%string, inherited_function 1);
    ("__lookupGetter__"%string, inherited_function 1);
    ("__lookupSetter__"%string, inherited_function 1);
    ("isPrototypeOf"%string, inherited_function 1);
    ("propertyIsEnumerable"%string, inherited_function 1);
    ("toString"%string, inherited_function 0);
    ("valueOf"%string, inherited_function 0);
    ("toLocaleString"%string, inherited_function 0);
    ("__proto__"%string, inherited_prototype) ].

Definition Object_prototype (name : string) : option Inherited :=
  match List.find (fun kv => String.eqb (fst kv) name)
          Object_prototype_properties with
  | Some kv => Some (snd kv)
  | None => None
  end.

(** The value of [obj[name]] for an object literal with the own
    properties [m]; [absent] is [undefined]. *)
Inductive Lookup (A : Type) :=
  | own (a : A)
  | inherited (i : Inherited)
  | absent.

Arguments own {A} a.
Arguments inherited {A} i.
Arguments absent {A}.

Definition get {A : Type} (m : gmap string A) (name : string) : Lookup A :=
  match m !! name with
  | Some a => own a
  | None =>
      match Object_prototype name with
      | Some i => inherited i
      | None => absent
      end
  end.

(** [getCellAmount]; [None] is the value [undefined].  An inherited value
    is truthy, so it passes [!cells]; a function has a [length], the
    prototype object has none ([cellIndex >= undefined] is false); neither
    has indexed properties. *)
Definition getCellAmount (level : string) (cellIndex : Z) : option Q :=
  match get PAY_MATRIX level with
  | absent => Some 0
  | own cells =>
      if (cellIndex <? 0)%Z || (cellIndex >=? Z.of_nat (List.length cells))%Z
      then Some 0
      else Some (nth (Z.to_nat cellIndex) cells 0)
  | inherited (inherited_function arity) =>
      if (cellIndex <? 0)%Z || (cellIndex >=? arity)%Z then Some 0 else None
  | inherited inherited_prototype =>
      if (cellIndex <? 0)%Z then Some 0 else None
  end.

(** [suggestCellFromExperience]; [None] is [NaN]
    ([Math.min(years, undefined - 1)]). *)
Definition suggestCellFromExperience (level : string)
    (yearsOfExperience : Z) : option Z :=
  match get PAY_MATRIX level with
  | absent => Some 0%Z
  | own cells =>
      Some (Z.max 0
              (Z.min yearsOfExperience (Z.of_nat (List.length cells) - 1)))
  | inherited (inherited_function arity) =>
      Some (Z.max 0 (Z.min yearsOfExperience (arity - 1)))
  | inherited inherited_prototype => None
  end.

(** [getCellsForLevel]; [None] is a thrown [TypeError]: an inherited
    value has no [map] method. *)
Definition getCellsForLevel (level : string) : option (list CellRow) :=
  match get PAY_MATRIX level with
  | absent => Some []
  | own cells =>
      Some (imap (fun (idx : nat) (amount0 : Q) =>
                    {| cell := Z.of_nat idx + 1;
                       amount := amount0;
                       experience :=
                         (pretty idx ++ " yr"
                          ++ (if (idx =? 1)%nat then "" else "s")
                          ++ " exp")%string |})
              cells)
  | inherited _ => None
  end.

(** What [getBenefitsForPosition] returns: a benefits bundle, or the
    inherited object found under the level's name. *)
Inductive BenefitsValue :=
  | benefits_bundle (b : Benefits)
  | inherited_value (i : Inherited).

(** [getBenefitsForPosition].  Position ids are numbers, so their keys
    are never inherited names; the level is any string. *)
Definition getBenefitsForPosition (settings : GlobalSettings)
    (positionId : Z) (level : string) : BenefitsValue :=
  match positionBenefits settings !! positionId with
  | Some b => benefits_bundle b
  | None =>
      match get (levelBenefits settings) level with
      | own b => benefits_bundle b
      | inherited i => inherited_value i
      | absent => benefits_bundle (globalBenefits settings)
      end
  end.

Definition getBenefitsSource (settings : GlobalSettings)
    (positionId : Z) (level : string) : BenefitsSource :=
  match positionBenefits settings !! positionId with
  | Some _ => source_position
  | None =>
      match get (levelBenefits settings) level with
      | own _ => source_level
      | inherited _ => source_level
      | absent => source_global
      end
  end.

End Proto.

(** ** The engine in IEEE-754 binary64

    A JavaScript [number] is a double.  The definitions above compute with
    exact rationals; the ones of this module compute every product,
    quotient, sum and comparison of [salary-calculator.ts] in binary64
    (round to nearest, ties to even), with the operations of the standard
    library's specification of floating-point arithmetic.  The two agree
    wherever every intermediate value is exactly representable; near a tie
    of a rounding step they can differ, and there this module is the code. *)

Module Double.

Definition prec : Z := 53.
Definition emax : Z := 1024.

Definition of_Z (z : Z) : spec_float := binary_normalize prec emax z 0 false.

Definition add : spec_float -> spec_float -> spec_float := SFadd prec emax.
Definition sub : spec_float -> spec_float -> spec_float := SFsub prec emax.
Definition mul : spec_float -> spec_float -> spec_float := SFmul prec emax.
Definition div : spec_float -> spec_float -> spec_float := SFdiv prec emax.

(** [a > b], [a < b], [a >= b], [a <= b]: false when either side is NaN. *)
Definition gt (a b : spec_float) : bool := SFltb b a.
Definition lt (a b : spec_float) : bool := SFltb a b.
Definition ge (a b : spec_float) : bool := SFleb b a.
Definition le (a b : spec_float) : bool := SFleb a b.

Definition zero : spec_float := S754_zero false.

(** The real number a finite double stands for, in lowest terms. *)
Definition value (x : spec_float) : option Q :=
  match x with
  | S754_zero _ => Some 0
  | S754_finite s m e =>
      let magnitude :=
        match e with
        | Z0 => inject_Z (Zpos m)
        | Zpos p => inject_Z (Zpos m * 2 ^ Zpos p)
        | Zneg p => Zpos m # (2 ^ p)
        end in
      Some (Qred (if s then - magnitude else magnitude))
  | _ => None
  end.

(** The double of an integer result of [Math.round], with the sign of the
    argument when the result is zero. *)
Definition of_rounded (s : bool) (n : Z) : spec_float :=
  if (n =? 0)%Z then S754_zero s else of_Z n.

(** [Math.round]: NaN, the infinities and the zeros are returned as they
    are; a finite [x] gives the integer nearest to [x], the one closer to
    plus infinity on a tie, which is [floor (x + 1/2)] computed exactly
    (and [-0] for [-0.5 <= x < 0]). *)
Definition Math_round (x : spec_float) : spec_float :=
  match x, value x with
  | S754_finite s _ _, Some q => of_rounded s (Qfloor (q + (1 # 2)))
  | _, _ => x
  end.

Record HraConfig := {
  providingHousing : bool;
  stillProvideHra : bool;
  cfg_hraMode : HraMode;
  lumpSumValue : spec_float
}.

Record PositionPremiumRange := {
  minPremium : spec_float;
  maxPremium : spec_float
}.

Record PositionSalaryCap := {
  minWPUSalaryAnnual : spec_float;
  maxWPUSalaryAnnual : spec_float;
  maxWPUCTCAnnual : spec_float
}.

Record Benefits := {
  housing : spec_float;
  professionalDev : spec_float;
  ppfPercent : spec_float;
  gratuityPercent : spec_float;
  healthInsurance : spec_float
}.

Record UGCSalaryBreakdown := {
  ugc_basic : spec_float;
  ugc_da : spec_float;
  ugc_hra : spec_float;
  ugc_hraMode : BreakdownHraMode;
  ugc_ta : spec_float;
  ugc_specialAllowance : spec_float;
  ugc_totalMonthly : spec_float;
  ugc_totalAnnual : spec_float
}.

Record EnforcementStatus := {
  salaryCapped : bool;
  salaryBelowMin : bool;
  ctcCapped : bool;
  premiumBelowMin : bool;
  premiumAboveMax : bool;
  originalSalaryAnnual : spec_float;
  originalCTCAnnual : spec_float
}.

Record BenefitsBreakdown := {
  bb_housing : spec_float;
  bb_professionalDev : spec_float;
  ppfAmount : spec_float;
  gratuityAmount : spec_float;
  bb_healthInsurance : spec_float;
  bb_totalMonthly : spec_float;
  bb_totalAnnual : spec_float
}.

Record WPUSalaryBreakdown := {
  basic : spec_float;
  da : spec_float;
  hra : spec_float;
  hraMode : BreakdownHraMode;
  ta : spec_float;
  specialAllowance : spec_float;
  multiplierBonus : spec_float;
  premiumMonthly : spec_float;
  totalSalaryMonthly : spec_float;
  totalSalaryAnnual : spec_float;
  benefits : BenefitsBreakdown;
  totalCTCMonthly : spec_float;
  totalCTCAnnual : spec_float;
  method : MultiplierMethod;
  strategy : FinancialStrategy;
  enforcement : EnforcementStatus
}.

(** [HRA_RATES[cityType].rate]. *)
Definition HRA_RATES_rate (c : CityType) : spec_float :=
  match c with
  | X => of_Z 30
  | Y => of_Z 20
  | Z_city => of_Z 10
  end.

Definition calculateDA (basic daPercent : spec_float) : spec_float :=
  Math_round (mul basic (div daPercent (of_Z 100))).

Definition calculateHRA (basic : spec_float) (cityType : CityType)
    (hraConfig : option HraConfig) : spec_float * BreakdownHraMode :=
  let percent :=
    let rate := HRA_RATES_rate cityType in
    (Math_round (mul basic (div rate (of_Z 100))), mode_percent) in
  match hraConfig with
  | Some cfg =>
      if providingHousing cfg && negb (stillProvideHra cfg)
      then (zero, mode_none)
      else match cfg_hraMode cfg with
           | hra_lumpsum => (lumpSumValue cfg, mode_lumpsum)
           | hra_percent => percent
           end
  | None => percent
  end.

Definition calculateTA (level : string) (daPercent : spec_float)
    (isTPTACity : bool) : spec_float :=
  let levelNum :=
    if String.eqb level "13A" then Some 13%Z else JS.parseInt level in
  let taBase :=
    if JS.ge_int levelNum 9 then
      if isTPTACity then of_Z 7200 else of_Z 3600
    else if JS.ge_int levelNum 3 then
      if isTPTACity then of_Z 3600 else of_Z 1800
    else
      if isTPTACity then of_Z 1350 else of_Z 900 in
  let daOnTA := Math_round (mul taBase (div daPercent (of_Z 100))) in
  add taBase daOnTA.

Definition calculateUGCSalary (basic daPercent : spec_float)
    (cityType : CityType) (level : string) (specialAllowance : spec_float)
    (isTPTACity : bool) (hraConfig : option HraConfig)
    : UGCSalaryBreakdown :=
  let da := calculateDA basic daPercent in
  let hraResult := calculateHRA basic cityType hraConfig in
  let ta := calculateTA level daPercent isTPTACity in
  let totalMonthly :=
    add (add (add (add basic da) (fst hraResult)) ta) specialAllowance in
  {| ugc_basic := basic;
     ugc_da := da;
     ugc_hra := fst hraResult;
     ugc_hraMode := snd hraResult;
     ugc_ta := ta;
     ugc_specialAllowance := specialAllowance;
     ugc_totalMonthly := totalMonthly;
     ugc_totalAnnual := mul totalMonthly (of_Z 12) |}.

Definition calculateBenefits (basic : spec_float) (b : Benefits)
    : BenefitsBreakdown :=
  let ppfAmount := Math_round (mul basic (div (ppfPercent b) (of_Z 100))) in
  let gratuityAmount :=
    Math_round (mul basic (div (gratuityPercent b) (of_Z 100))) in
  let totalMonthly :=
    add (add (add (add (housing b) (professionalDev b)) ppfAmount)
           gratuityAmount) (healthInsurance b) in
  {| bb_housing := housing b;
     bb_professionalDev := professionalDev b;
     ppfAmount := ppfAmount;
     gratuityAmount := gratuityAmount;
     bb_healthInsurance := healthInsurance b;
     bb_totalMonthly := totalMonthly;
     bb_totalAnnual := mul totalMonthly (of_Z 12) |}.

Record Components := {
  wpuBasic : spec_float;
  wpuDA : spec_float;
  wpuHRA : spec_float;
  c_hraMode : BreakdownHraMode;
  wpuTA : spec_float
}.

(** [baseSalaryForMultiplier] of method A, and [baseSalaryMonthly] without
    the bonus: [wpuBasic + wpuDA + wpuHRA + wpuTA + specialAllowance], added
    from the left as the source does. *)
Definition componentSum (c : Components) (specialAllowance : spec_float)
    : spec_float :=
  add (add (add (add (wpuBasic c) (wpuDA c)) (wpuHRA c)) (wpuTA c))
    specialAllowance.

Definition methodComponents (ugcSalary : UGCSalaryBreakdown)
    (multiplier : spec_float) (method : MultiplierMethod)
    (daPercent : spec_float) (cityType : CityType) (level : string)
    (specialAllowance : spec_float) (isTPTACity : bool)
    (hraConfig : option HraConfig) : Components * spec_float :=
  match method with
  | methodA =>
      let hraResult := calculateHRA (ugc_basic ugcSalary) cityType hraConfig in
      let c :=
        {| wpuBasic := ugc_basic ugcSalary;
           wpuDA := ugc_da ugcSalary;
           wpuHRA := fst hraResult;
           c_hraMode := snd hraResult;
           wpuTA := ugc_ta ugcSalary |} in
      let baseSalaryForMultiplier := componentSum c specialAllowance in
      (c, Math_round (mul baseSalaryForMultiplier (sub multiplier (of_Z 1))))
  | methodB =>
      let wpuBasic := Math_round (mul (ugc_basic ugcSalary) multiplier) in
      let hraResult := calculateHRA wpuBasic cityType hraConfig in
      ({| wpuBasic := wpuBasic;
          wpuDA := calculateDA wpuBasic daPercent;
          wpuHRA := fst hraResult;
          c_hraMode := snd hraResult;
          wpuTA := calculateTA level daPercent isTPTACity |},
       zero)
  end.

Definition resetOnPremium (method : MultiplierMethod)
    (ugcSalary : UGCSalaryBreakdown) (c : Components) : Components :=
  match method with
  | methodB =>
      {| wpuBasic := ugc_basic ugcSalary;
         wpuDA := ugc_da ugcSalary;
         wpuHRA := ugc_hra ugcSalary;
         c_hraMode := ugc_hraMode ugcSalary;
         wpuTA := ugc_ta ugcSalary |}
  | methodA => c
  end.

Record Resolved := {
  r_components : Components;
  r_totalSalaryMonthly : spec_float;
  actualMultiplierBonus : spec_float;
  actualPremiumMonthly : spec_float
}.

Definition resolveStrategy (ugcSalary : UGCSalaryBreakdown)
    (multiplier annualPremium : spec_float) (strategy : FinancialStrategy)
    (method : MultiplierMethod) (daPercent : spec_float)
    (cityType : CityType) (level : string) (specialAllowance : spec_float)
    (isTPTACity : bool) (hraConfig : option HraConfig) : Resolved :=
  let '(c, multiplierBonus) :=
    methodComponents ugcSalary multiplier method daPercent cityType level
      specialAllowance isTPTACity hraConfig in
  let baseSalaryMonthly :=
    add (componentSum c specialAllowance) multiplierBonus in
  let premiumMonthly := Math_round (div annualPremium (of_Z 12)) in
  let multiplierResult := baseSalaryMonthly in
  let premiumResult := add (ugc_totalMonthly ugcSalary) premiumMonthly in
  let multiplierPath :=
    {| r_components := c;
       r_totalSalaryMonthly := multiplierResult;
       actualMultiplierBonus := multiplierBonus;
       actualPremiumMonthly := zero |} in
  let premiumPath :=
    {| r_components := resetOnPremium method ugcSalary c;
       r_totalSalaryMonthly := premiumResult;
       actualMultiplierBonus := zero;
       actualPremiumMonthly := premiumMonthly |} in
  match strategy with
  | multiplier => multiplierPath
  | premium => premiumPath
  | both =>
      {| r_components := c;
         r_totalSalaryMonthly := add baseSalaryMonthly premiumMonthly;
         actualMultiplierBonus := multiplierBonus;
         actualPremiumMonthly := premiumMonthly |}
  | higher =>
      if ge multiplierResult premiumResult then multiplierPath
      else premiumPath
  | lower =>
      if le multiplierResult premiumResult then multiplierPath
      else premiumPath
  end.

Definition computedMaxCTC (salaryCap : PositionSalaryCap)
    (benefitsBreakdown : BenefitsBreakdown) : spec_float :=
  if gt (maxWPUCTCAnnual salaryCap) zero then maxWPUCTCAnnual salaryCap
  else if gt (maxWPUSalaryAnnual salaryCap) zero
       then add (maxWPUSalaryAnnual salaryCap)
              (bb_totalAnnual benefitsBreakdown)
       else zero.

Record CapOutcome := {
  co_salaryCapped : bool;
  co_salaryBelowMin : bool;
  co_ctcCapped : bool;
  co_totalSalaryMonthly : spec_float;
  co_totalCTCMonthly : spec_float
}.

Definition applySalaryCap (enforcementMode : EnforcementMode)
    (salaryCap : option PositionSalaryCap)
    (benefitsBreakdown : BenefitsBreakdown)
    (totalSalaryMonthly totalCTCMonthly : spec_float) : CapOutcome :=
  match salaryCap with
  | None =>
      {| co_salaryCapped := false; co_salaryBelowMin := false;
         co_ctcCapped := false;
         co_totalSalaryMonthly := totalSalaryMonthly;
         co_totalCTCMonthly := totalCTCMonthly |}
  | Some cap =>
      let salaryBelowMin :=
        gt (minWPUSalaryAnnual cap) zero
        && lt (mul totalSalaryMonthly (of_Z 12)) (minWPUSalaryAnnual cap) in
      let salaryCapped :=
        gt (maxWPUSalaryAnnual cap) zero
        && gt (mul totalSalaryMonthly (of_Z 12)) (maxWPUSalaryAnnual cap) in
      let maxCTC := computedMaxCTC cap benefitsBreakdown in
      let ctcCapped :=
        gt maxCTC zero && gt (mul totalCTCMonthly (of_Z 12)) maxCTC in
      match enforcementMode with
      | hard =>
          let totalSalaryMonthly' :=
            if salaryCapped
            then Math_round (div (maxWPUSalaryAnnual cap) (of_Z 12))
            else totalSalaryMonthly in
          let totalCTCMonthly' :=
            add totalSalaryMonthly' (bb_totalMonthly benefitsBreakdown) in
          if gt maxCTC zero && gt (mul totalCTCMonthly' (of_Z 12)) maxCTC
          then {| co_salaryCapped := salaryCapped;
                  co_salaryBelowMin := salaryBelowMin;
                  co_ctcCapped := true;
                  co_totalSalaryMonthly := totalSalaryMonthly';
                  co_totalCTCMonthly := Math_round (div maxCTC (of_Z 12)) |}
          else {| co_salaryCapped := salaryCapped;
                  co_salaryBelowMin := salaryBelowMin;
                  co_ctcCapped := ctcCapped;
                  co_totalSalaryMonthly := totalSalaryMonthly';
                  co_totalCTCMonthly := totalCTCMonthly' |}
      | soft =>
          {| co_salaryCapped := salaryCapped;
             co_salaryBelowMin := salaryBelowMin;
             co_ctcCapped := ctcCapped;
             co_totalSalaryMonthly := totalSalaryMonthly;
             co_totalCTCMonthly := totalCTCMonthly |}
      end
  end.

Definition calculateWPUSalary (ugcSalary : UGCSalaryBreakdown)
    (multiplier annualPremium : spec_float) (strategy : FinancialStrategy)
    (method : MultiplierMethod) (benefits : Benefits)
    (daPercent : spec_float) (cityType : CityType) (level : string)
    (specialAllowance : spec_float) (isTPTACity : bool)
    (hraConfig : option HraConfig) (enforcementMode : EnforcementMode)
    (premiumRange : option PositionPremiumRange)
    (salaryCap : option PositionSalaryCap) : WPUSalaryBreakdown :=
  let r :=
    resolveStrategy ugcSalary multiplier annualPremium strategy method
      daPercent cityType level specialAllowance isTPTACity hraConfig in
  let c := r_components r in
  let benefitsBreakdown := calculateBenefits (wpuBasic c) benefits in
  let totalSalaryMonthly := r_totalSalaryMonthly r in
  let totalCTCMonthly :=
    add totalSalaryMonthly (bb_totalMonthly benefitsBreakdown) in
  let originalSalaryAnnual := mul totalSalaryMonthly (of_Z 12) in
  let originalCTCAnnual := mul totalCTCMonthly (of_Z 12) in
  let premiumAboveMax :=
    match premiumRange with
    | Some range =>
        gt (maxPremium range) zero && gt annualPremium (maxPremium range)
    | None => false
    end in
  let premiumBelowMin :=
    match premiumRange with
    | Some range =>
        gt (minPremium range) zero && lt annualPremium (minPremium range)
    | None => false
    end in
  let co :=
    applySalaryCap enforcementMode salaryCap benefitsBreakdown
      totalSalaryMonthly totalCTCMonthly in
  {| basic := wpuBasic c;
     da := wpuDA c;
     hra := wpuHRA c;
     hraMode := c_hraMode c;
     ta := wpuTA c;
     specialAllowance := specialAllowance;
     multiplierBonus := actualMultiplierBonus r;
     premiumMonthly := actualPremiumMonthly r;
     totalSalaryMonthly := co_totalSalaryMonthly co;
     totalSalaryAnnual := mul (co_totalSalaryMonthly co) (of_Z 12);
     benefits := benefitsBreakdown;
     totalCTCMonthly := co_totalCTCMonthly co;
     totalCTCAnnual := mul (co_totalCTCMonthly co) (of_Z 12);
     method := method;
     strategy := strategy;
     enforcement :=
       {| salaryCapped := co_salaryCapped co;
          salaryBelowMin := co_salaryBelowMin co;
          ctcCapped := co_ctcCapped co;
          premiumBelowMin := premiumBelowMin;
          premiumAboveMax := premiumAboveMax;
          originalSalaryAnnual := originalSalaryAnnual;
          originalCTCAnnual := originalCTCAnnual |} |}.

(** The double nearest to [n / d]: what a decimal literal such as [1.3]
    stands for ([of_ratio 13 10]), both integers being exact. *)
Definition of_ratio (n d : Z) : spec_float := div (of_Z n) (of_Z d).

(** Concrete inputs used in the scenarios. *)
Definition zeroBenefits : Benefits :=
  {| housing := zero; professionalDev := zero; ppfPercent := zero;
     gratuityPercent := zero; healthInsurance := zero |}.

Definition cap2300000 : PositionSalaryCap :=
  {| minWPUSalaryAnnual := of_Z 1500000;
     maxWPUSalaryAnnual := of_Z 2300000;
     maxWPUCTCAnnual := zero |}.

Definition scenario1 : UGCSalaryBreakdown :=
  calculateUGCSalary (of_Z 57700) (of_Z 58) Y "10" zero false None.


End Double.
(** ** Scenarios of the specification, evaluated *)

Example getCellAmount_10_0 : getCellAmount "10" 0 = 57700.
Proof. vm_compute. reflexivity. Qed.

Example parseInt_13A : JS.parseInt "13A" = Some 13%Z.
Proof. reflexivity. Qed.

Example scenario2_multiplier_methodA :
  let w := calculateWPUSalary scenario1 (13 # 10) 300000 multiplier methodA
             zeroBenefits 58 Y "10" 0 false None soft None None in
  multiplierBonus w = 32518 /\ totalSalaryMonthly w = 140912
  /\ premiumMonthly w = 0.
Proof. vm_compute. auto. Qed.

Example scenario3_premium :
  let w := calculateWPUSalary scenario1 (13 # 10) 300000 premium methodA
             zeroBenefits 58 Y "10" 0 false None soft None None in
  multiplierBonus w = 0 /\ totalSalaryMonthly w = 133394
  /\ premiumMonthly w = 25000.
Proof. vm_compute. auto. Qed.

(** ** Facts about numbers *)

Lemma gt_true (a b : Q) : JS.gt a b = true <-> b < a.
Proof.
  unfold JS.gt. rewrite negb_true_iff, <- not_true_iff_false, Qle_bool_iff.
  split; [apply Qnot_le_lt | apply Qlt_not_le].
Qed.

Lemma gt_false (a b : Q) : JS.gt a b = false <-> a <= b.
Proof.
  unfold JS.gt. rewrite negb_false_iff, Qle_bool_iff. reflexivity.
Qed.

Lemma ge_true (a b : Q) : JS.ge a b = true <-> b <= a.
Proof. unfold JS.ge. apply Qle_bool_iff. Qed.

Lemma ge_false (a b : Q) : JS.ge a b = false <-> a < b.
Proof.
  unfold JS.ge. rewrite <- not_true_iff_false, Qle_bool_iff.
  split; [apply Qnot_le_lt | apply Qlt_not_le].
Qed.

Lemma le_true (a b : Q) : JS.le a b = true <-> a <= b.
Proof. unfold JS.le. apply Qle_bool_iff. Qed.

Lemma le_false (a b : Q) : JS.le a b = false <-> b < a.
Proof.
  unfold JS.le. rewrite <- not_true_iff_false, Qle_bool_iff.
  split; [apply Qnot_le_lt | apply Qlt_not_le].
Qed.

Lemma lt_true (a b : Q) : JS.lt a b = true <-> a < b.
Proof.
  unfold JS.lt. rewrite negb_true_iff, <- not_true_iff_false, Qle_bool_iff.
  split; [apply Qnot_le_lt | apply Qlt_not_le].
Qed.

(** [Math.round] returns the nearest integer, the upper one on a tie. *)
Lemma Math_round_bounds (x : Q) :
  x - (1 # 2) < JS.Math_round x /\ JS.Math_round x <= x + (1 # 2).
Proof.
  unfold JS.Math_round.
  pose proof (Qfloor_le (x + (1 # 2))) as Hle.
  pose proof (Qlt_floor (x + (1 # 2))) as Hlt.
  rewrite inject_Z_plus in Hlt. change (inject_Z 1) with 1 in Hlt.
  split; lra.
Qed.

(** An integer below a number is below its floor. *)
Lemma Qfloor_ge_Z (z : Z) (x : Q) : inject_Z z <= x -> (z <= Qfloor x)%Z.
Proof.
  intros H. rewrite <- (Qfloor_Z z). apply Qfloor_resp_le, H.
Qed.

Lemma whole_le_Math_round (x y : Q) : whole x -> x <= y -> x <= JS.Math_round y.
Proof.
  intros [z Hz] Hxy. rewrite Hz. unfold JS.Math_round.
  rewrite <- Zle_Qle. apply Qfloor_ge_Z. rewrite <- Hz. lra.
Qed.

Lemma Qfloor_whole_half (z : Z) : Qfloor (inject_Z z + (1 # 2)) = z.
Proof.
  pose proof (Qfloor_le (inject_Z z + (1 # 2))) as Hle.
  pose proof (Qlt_floor (inject_Z z + (1 # 2))) as Hlt.
  set (f := Qfloor (inject_Z z + (1 # 2))) in *.
  assert (H1 : inject_Z f < inject_Z (z + 1)).
  { rewrite inject_Z_plus. change (inject_Z 1) with 1. lra. }
  assert (H2 : inject_Z z < inject_Z (f + 1)) by lra.
  rewrite <- Zlt_Qlt in H1, H2. lia.
Qed.

Lemma Math_round_whole (x : Q) : whole x -> JS.Math_round x == x.
Proof.
  intros [z Hz]. unfold JS.Math_round.
  rewrite Hz at 1. rewrite Qfloor_whole_half. symmetry. exact Hz.
Qed.

Lemma whole_Math_round (x : Q) : whole (JS.Math_round x).
Proof. eexists. unfold JS.Math_round. reflexivity. Qed.

Lemma whole_inject_Z (z : Z) : whole (inject_Z z).
Proof. exists z. reflexivity. Qed.

Lemma whole_0 : whole 0.
Proof. apply (whole_inject_Z 0). Qed.

Lemma whole_plus (a b : Q) : whole a -> whole b -> whole (a + b).
Proof.
  intros [x Hx] [y Hy]. exists (x + y)%Z.
  rewrite inject_Z_plus, Hx, Hy. reflexivity.
Qed.


(** ** Pay-matrix lookup *)

(** Inside the range the lookup is the array element. *)
Lemma getCellAmount_in_range (level : string) (cells : list Q) (i : nat) :
  PAY_MATRIX !! level = Some cells -> (i < List.length cells)%nat ->
  getCellAmount level (Z.of_nat i) = nth i cells 0.
Proof.
  intros Hsome Hi. unfold getCellAmount. rewrite Hsome.
  replace (Z.of_nat i <? 0)%Z with false by (symmetry; apply Z.ltb_ge; lia).
  replace (Z.of_nat i >=? Z.of_nat (List.length cells))%Z with false.
  - simpl. rewrite Nat2Z.id. reflexivity.
  - symmetry. rewrite Z.geb_leb. apply Z.leb_gt. lia.
Qed.


(** ** The baseline calculator *)

(** C3. Scenario 1: the baseline calculator on basic 57700 (level 10,
    cell 0), dearness percent 58, city Y, level 10, no special allowance,
    not a TPTA city and no housing configuration returns DA 33466, HRA 11540
    in mode percent, TA 5688 (3600 plus 2088 of dearness on it), 108394 a
    month and 1300728 a year. *)
Theorem scenario1_baseline_breakdown :
  getCellAmount "10" 0 = 57700
  /\ calculateUGCSalary 57700 58 Y "10" 0 false None
     = {| ugc_basic := 57700;
          ugc_da := 33466;
          ugc_hra := 11540;
          ugc_hraMode := mode_percent;
          ugc_ta := 5688;
          ugc_specialAllowance := 0;
          ugc_totalMonthly := 108394;
          ugc_totalAnnual := 1300728 |}
  /\ otherCity (level9Plus TA_RATES) = 3600
  /\ JS.Math_round (3600 * (58 / 100)) = 2088
  /\ calculateTA "10" 58 false = 5688.
Proof. vm_compute. repeat split; reflexivity. Qed.

(** ** Strategy resolution *)

(** C1. Whatever the input, strategy multiplier reports a flat premium of
    0; strategy premium reports a multiplier bonus of 0 and, under method B,
    basic, DA, HRA, TA and the HRA mode of the result are the baseline's. *)
Theorem strategy_line_items
    (ugcSalary : UGCSalaryBreakdown) (mult annualPremium : Q)
    (method0 : MultiplierMethod) (benefits0 : Benefits) (daPercent : Q)
    (cityType : CityType) (level : string) (special : Q) (isTPTACity : bool)
    (hraConfig : option HraConfig) (mode : EnforcementMode)
    (premiumRange : option PositionPremiumRange)
    (salaryCap : option PositionSalaryCap) :
  premiumMonthly
    (calculateWPUSalary ugcSalary mult annualPremium multiplier method0
       benefits0 daPercent cityType level special isTPTACity hraConfig mode
       premiumRange salaryCap) = 0
  /\ multiplierBonus
       (calculateWPUSalary ugcSalary mult annualPremium premium method0
          benefits0 daPercent cityType level special isTPTACity hraConfig
          mode premiumRange salaryCap) = 0
  /\ (let w :=
        calculateWPUSalary ugcSalary mult annualPremium premium methodB
          benefits0 daPercent cityType level special isTPTACity hraConfig
          mode premiumRange salaryCap in
      basic w = ugc_basic ugcSalary
      /\ da w = ugc_da ugcSalary
      /\ hra w = ugc_hra ugcSalary
      /\ ta w = ugc_ta ugcSalary
      /\ hraMode w = ugc_hraMode ugcSalary).
Proof.
  split; [|split].
  - unfold calculateWPUSalary, resolveStrategy.
    destruct (methodComponents _ _ _ _ _ _ _ _ _) as [c b]. reflexivity.
  - unfold calculateWPUSalary, resolveStrategy.
    destruct (methodComponents _ _ _ _ _ _ _ _ _) as [c b]. reflexivity.
  - cbv zeta. unfold calculateWPUSalary, resolveStrategy.
    destruct (methodComponents _ _ _ _ _ _ _ _ _) as [c b]. cbn.
    repeat split; reflexivity.
Qed.

(** Under method B the reset matters: the multiplier path reports the
    inflated basic, the premium path the baseline's. *)
Example methodB_reset_is_visible :
  let run s :=
    calculateWPUSalary scenario1 (13 # 10) 300000 s methodB zeroBenefits 58
      Y "10" 0 false None soft None None in
  basic (run multiplier) = 75010 /\ basic (run premium) = 57700
  /\ da (run multiplier) = 43506 /\ da (run premium) = 33466.
Proof. vm_compute. auto. Qed.

(** ** Enforcement *)

(** The salary that [applySalaryCap] returns, case by case. *)
Lemma applySalaryCap_salary (mode : EnforcementMode)
    (sc : option PositionSalaryCap) (bb : BenefitsBreakdown) (t c : Q) :
  co_totalSalaryMonthly (applySalaryCap mode sc bb t c)
  = match mode, sc with
    | hard, Some cap =>
        if JS.gt (maxWPUSalaryAnnual cap) 0
           && JS.gt (t * 12) (maxWPUSalaryAnnual cap)
        then JS.Math_round (maxWPUSalaryAnnual cap / 12)
        else t
    | _, _ => t
    end.
Proof.
  destruct sc as [cap|], mode; try reflexivity.
  unfold applySalaryCap.
  destruct (JS.gt (computedMaxCTC cap bb) 0 && JS.gt _ _); reflexivity.
Qed.

Lemma applySalaryCap_capped (mode : EnforcementMode)
    (cap : PositionSalaryCap) (bb : BenefitsBreakdown) (t c : Q) :
  co_salaryCapped (applySalaryCap mode (Some cap) bb t c)
  = JS.gt (maxWPUSalaryAnnual cap) 0
    && JS.gt (t * 12) (maxWPUSalaryAnnual cap).
Proof.
  destruct mode; try reflexivity.
  unfold applySalaryCap.
  destruct (JS.gt (computedMaxCTC cap bb) 0 && JS.gt _ _); reflexivity.
Qed.

(** The cap keeps the order of two salaries, provided the smaller one is a
    whole number when the clamp is active. *)
Lemma applySalaryCap_monotone (mode : EnforcementMode)
    (sc : option PositionSalaryCap) (bb1 bb2 : BenefitsBreakdown)
    (t1 c1 t2 c2 : Q) :
  t1 <= t2 ->
  mode = soft \/ sc = None \/ whole t1 ->
  co_totalSalaryMonthly (applySalaryCap mode sc bb1 t1 c1)
  <= co_totalSalaryMonthly (applySalaryCap mode sc bb2 t2 c2).
Proof.
  intros Hle Hside. rewrite !applySalaryCap_salary.
  destruct mode; [exact Hle|].
  destruct sc as [cap|]; [|exact Hle].
  destruct Hside as [Hs | [Hs | Hw]]; [discriminate Hs | discriminate Hs |].
  destruct (JS.gt (maxWPUSalaryAnnual cap) 0) eqn:Hpos; cbn [andb];
    [|exact Hle].
  destruct (JS.gt (t1 * 12) _) eqn:H1; destruct (JS.gt (t2 * 12) _) eqn:H2.
  - apply Qle_refl.
  - apply gt_true in H1. apply gt_false in H2. lra.
  - apply gt_false in H1. apply whole_le_Math_round; [exact Hw|].
    apply Qle_shift_div_l; [reflexivity | exact H1].
  - exact Hle.
Qed.

Section Enhanced.

Variables (ugcSalary : UGCSalaryBreakdown) (mult annualPremium : Q).
Variables (benefits0 : Benefits) (daPercent : Q) (cityType : CityType).
Variables (level : string) (special : Q) (isTPTACity : bool).
Variable hraConfig : option HraConfig.

(** The enhanced calculator and its pre-enforcement totals on the inputs
    of this section. *)
Local Abbreviation run s m mode pr sc :=
  (calculateWPUSalary ugcSalary mult annualPremium s m benefits0 daPercent
     cityType level special isTPTACity hraConfig mode pr sc).
Local Abbreviation pre s m :=
  (preTotal ugcSalary mult annualPremium s m daPercent cityType level
     special isTPTACity hraConfig).
Local Abbreviation preC s m :=
  (preCTC ugcSalary mult annualPremium s m benefits0 daPercent cityType
     level special isTPTACity hraConfig).

Lemma run_total (s : FinancialStrategy) (m : MultiplierMethod)
    (mode : EnforcementMode) (pr : option PositionPremiumRange)
    (sc : option PositionSalaryCap) :
  totalSalaryMonthly (run s m mode pr sc)
  = co_totalSalaryMonthly
      (applySalaryCap mode sc (benefits (run s m mode pr sc))
         (pre s m) (preC s m)).
Proof. reflexivity. Qed.

(** C4. In soft mode the returned monthly salary and monthly CTC are the
    values computed before enforcement, the annual totals are the recorded
    original ones, and the whole result differs from the one computed with
    no premium range and no salary cap in the five status flags only. *)
Theorem soft_mode_keeps_totals (s : FinancialStrategy) (m : MultiplierMethod)
    (pr : option PositionPremiumRange) (sc : option PositionSalaryCap) :
  let w := run s m soft pr sc in
  let w0 := run s m soft None None in
  totalSalaryMonthly w = pre s m
  /\ totalCTCMonthly w = preC s m
  /\ totalSalaryAnnual w = originalSalaryAnnual (enforcement w)
  /\ totalCTCAnnual w = originalCTCAnnual (enforcement w)
  /\ w = {| basic := basic w0; da := da w0; hra := hra w0;
            hraMode := hraMode w0; ta := ta w0;
            specialAllowance := specialAllowance w0;
            multiplierBonus := multiplierBonus w0;
            premiumMonthly := premiumMonthly w0;
            totalSalaryMonthly := totalSalaryMonthly w0;
            totalSalaryAnnual := totalSalaryAnnual w0;
            benefits := benefits w0;
            totalCTCMonthly := totalCTCMonthly w0;
            totalCTCAnnual := totalCTCAnnual w0;
            method := method w0; strategy := strategy w0;
            enforcement :=
              {| salaryCapped := salaryCapped (enforcement w);
                 salaryBelowMin := salaryBelowMin (enforcement w);
                 ctcCapped := ctcCapped (enforcement w);
                 premiumBelowMin := premiumBelowMin (enforcement w);
                 premiumAboveMax := premiumAboveMax (enforcement w);
                 originalSalaryAnnual :=
                   originalSalaryAnnual (enforcement w0);
                 originalCTCAnnual := originalCTCAnnual (enforcement w0) |}
         |}.
Proof.
  cbv zeta. unfold preTotal, preCTC, calculateWPUSalary.
  destruct sc as [cap|]; cbn; repeat split; reflexivity.
Qed.

Lemma preTotal_lower_le_higher (m : MultiplierMethod) :
  pre lower m <= pre higher m.
Proof.
  unfold preTotal, resolveStrategy.
  destruct (methodComponents _ _ _ _ _ _ _ _ _) as [c b]. cbv zeta.
  set (mr := wpuBasic c + wpuDA c + wpuHRA c + wpuTA c + special + b).
  set (pr := ugc_totalMonthly ugcSalary + JS.Math_round (annualPremium / 12)).
  destruct (JS.le mr pr) eqn:Hl; destruct (JS.ge mr pr) eqn:Hg; cbn;
    try apply le_true in Hl; try apply le_false in Hl;
    try apply ge_true in Hg; try apply ge_false in Hg; lra.
Qed.

(** C5, amended. With the same inputs, the final monthly salary under
    strategy higher is at least the one under strategy lower, whenever the
    hard clamp is not in play (soft mode, or no salary cap) or the
    pre-clamp salary of the lower call is a whole number. *)
Theorem higher_ge_lower (m : MultiplierMethod) (mode : EnforcementMode)
    (pr : option PositionPremiumRange) (sc : option PositionSalaryCap) :
  mode = soft \/ sc = None \/ whole (pre lower m) ->
  totalSalaryMonthly (run lower m mode pr sc)
  <= totalSalaryMonthly (run higher m mode pr sc).
Proof.
  intros Hside. rewrite !run_total.
  apply applySalaryCap_monotone;
    [apply preTotal_lower_le_higher | exact Hside].
Qed.

(** What the hard clamp computes.  In hard mode with a positive maximum
    salary that the pre-clamp annual salary exceeds, the result is flagged
    [salaryCapped], its monthly salary is [Math.round (max / 12)] and its
    annual salary is twelve times that, which is the maximum only when the
    maximum is a multiple of 12. *)
Lemma hard_cap_clamps_salary (s : FinancialStrategy) (m : MultiplierMethod)
    (pr : option PositionPremiumRange) (cap : PositionSalaryCap) :
  0 < maxWPUSalaryAnnual cap ->
  maxWPUSalaryAnnual cap < pre s m * 12 ->
  let w := run s m hard pr (Some cap) in
  salaryCapped (enforcement w) = true
  /\ totalSalaryMonthly w = JS.Math_round (maxWPUSalaryAnnual cap / 12)
  /\ totalSalaryAnnual w = JS.Math_round (maxWPUSalaryAnnual cap / 12) * 12
  /\ maxWPUSalaryAnnual cap - 6 < totalSalaryAnnual w
  /\ totalSalaryAnnual w <= maxWPUSalaryAnnual cap + 6
  /\ (totalSalaryAnnual w == maxWPUSalaryAnnual cap
      <-> whole (maxWPUSalaryAnnual cap / 12)).
Proof.
  intros Hpos Hover. cbv zeta.
  assert (Hflag : JS.gt (maxWPUSalaryAnnual cap) 0
                  && JS.gt (pre s m * 12) (maxWPUSalaryAnnual cap)
                  = true).
  { apply andb_true_intro. split; apply gt_true; assumption. }
  assert (Ht : totalSalaryMonthly (run s m hard pr (Some cap))
               = JS.Math_round (maxWPUSalaryAnnual cap / 12)).
  { rewrite run_total, applySalaryCap_salary, Hflag. reflexivity. }
  assert (Ha : totalSalaryAnnual (run s m hard pr (Some cap))
               = JS.Math_round (maxWPUSalaryAnnual cap / 12) * 12).
  { rewrite <- Ht. reflexivity. }
  pose proof (Math_round_bounds (maxWPUSalaryAnnual cap / 12)) as [Hlo Hhi].
  assert (Hdiv : maxWPUSalaryAnnual cap / 12 * 12 == maxWPUSalaryAnnual cap)
    by (field).
  split; [|split; [exact Ht|split; [exact Ha|]]].
  - change (co_salaryCapped
              (applySalaryCap hard (Some cap)
                 (benefits (run s m hard pr (Some cap)))
                 (pre s m) (preC s m)) = true).
    rewrite applySalaryCap_capped. exact Hflag.
  - rewrite Ha. split; [lra|split; [lra|]]. split.
    + intros Heq. eexists. unfold JS.Math_round in *.
      apply (Qmult_inj_r _ _ 12); [discriminate|].
      rewrite Hdiv, <- Heq. reflexivity.
    + intros Hw. rewrite (Math_round_whole _ Hw). exact Hdiv.
Qed.

End Enhanced.

Lemma hard_cap_clamps_salary_witness :
  let w :=
    calculateWPUSalary scenario1 2 0 multiplier methodA zeroBenefits 58 Y
      "10" 0 false None hard None (Some cap2300000) in
  salaryCapped (enforcement w) = true
  /\ totalSalaryAnnual w = JS.Math_round (2300000 / 12) * 12.
Proof.
  assert (H1 : 0 < maxWPUSalaryAnnual cap2300000) by reflexivity.
  assert (H2 : maxWPUSalaryAnnual cap2300000
               < preTotal scenario1 2 0 multiplier methodA 58 Y "10" 0 false
                   None * 12)
    by (vm_compute; reflexivity).
  destruct (hard_cap_clamps_salary scenario1 2 0 zeroBenefits 58 Y "10" 0
              false None multiplier methodA None cap2300000 H1 H2)
    as (Hc & _ & Ha & _).
  split; [exact Hc | exact Ha].
Defined.

(** With a special allowance of 0.4 and a cap of 1300733 a year, the call
    with strategy lower stays under the cap and keeps 108394.4 a month,
    while the call with strategy higher is clamped to 108394. *)
Lemma higher_below_lower_counterexample :
  let u := calculateUGCSalary 57700 58 Y "10" (2 # 5) false None in
  let run s :=
    calculateWPUSalary u 1 12000 s methodA zeroBenefits 58 Y "10" (2 # 5)
      false None hard None (Some cap1300733) in
  totalSalaryMonthly (run higher) == 108394
  /\ totalSalaryMonthly (run lower) == 541972 # 5
  /\ totalSalaryMonthly (run higher) < totalSalaryMonthly (run lower).
Proof. vm_compute. repeat split; reflexivity. Qed.

Lemma higher_ge_lower_witness :
  totalSalaryMonthly
    (calculateWPUSalary scenario1 (13 # 10) 300000 lower methodA
       zeroBenefits 58 Y "10" 0 false None hard None (Some cap1300733))
  <= totalSalaryMonthly
       (calculateWPUSalary scenario1 (13 # 10) 300000 higher methodA
          zeroBenefits 58 Y "10" 0 false None hard None (Some cap1300733)).
Proof.
  apply higher_ge_lower. right. right.
  exists 133394%Z. vm_compute. reflexivity.
Defined.

(** Whole inputs give whole pre-clamp salaries, so on whole rupee amounts
    the side condition of the comparison of higher and lower holds. *)
Lemma calculateTA_whole (level : string) (daPercent : Q) (isTPTACity : bool) :
  whole (calculateTA level daPercent isTPTACity).
Proof.
  unfold calculateTA. cbv zeta.
  apply whole_plus; [|apply whole_Math_round].
  destruct (JS.ge_int _ 9); [|destruct (JS.ge_int _ 3)];
    destruct isTPTACity; cbn; apply whole_inject_Z.
Qed.

Lemma calculateDA_whole (b daPercent : Q) : whole (calculateDA b daPercent).
Proof. apply whole_Math_round. Qed.

Lemma calculateHRA_whole (b : Q) (cityType : CityType)
    (hraConfig : option HraConfig) :
  (forall cfg, hraConfig = Some cfg -> whole (lumpSumValue cfg)) ->
  whole (fst (calculateHRA b cityType hraConfig)).
Proof.
  intros Hlump. unfold calculateHRA. cbv zeta.
  destruct hraConfig as [cfg|]; [|apply whole_Math_round].
  destruct (providingHousing cfg && negb (stillProvideHra cfg));
    [apply (whole_inject_Z 0)|].
  destruct (cfg_hraMode cfg); cbn;
    [apply whole_Math_round | apply Hlump; reflexivity].
Qed.

Lemma preTotal_whole (ugcSalary : UGCSalaryBreakdown)
    (mult annualPremium : Q) (s : FinancialStrategy) (m : MultiplierMethod)
    (daPercent : Q) (cityType : CityType) (level : string) (special : Q)
    (isTPTACity : bool) (hraConfig : option HraConfig) :
  whole (ugc_basic ugcSalary) -> whole (ugc_da ugcSalary) ->
  whole (ugc_ta ugcSalary) -> whole (ugc_totalMonthly ugcSalary) ->
  whole special ->
  (forall cfg, hraConfig = Some cfg -> whole (lumpSumValue cfg)) ->
  whole (preTotal ugcSalary mult annualPremium s m daPercent cityType level
           special isTPTACity hraConfig).
Proof.
  intros Hb Hd Ht Htot Hs Hl.
  assert (Hm : whole
                 (let cb := methodComponents ugcSalary mult m daPercent
                              cityType level special isTPTACity hraConfig in
                  wpuBasic (fst cb) + wpuDA (fst cb) + wpuHRA (fst cb)
                  + wpuTA (fst cb) + special + snd cb)).
  { destruct m; unfold methodComponents; cbv zeta;
      cbn [fst snd wpuBasic wpuDA wpuHRA wpuTA].
    - do 5 (apply whole_plus;
              [|solve [auto using whole_Math_round, calculateHRA_whole]]).
      exact Hb.
    - do 5 (apply whole_plus;
              [|solve [auto using whole_Math_round, calculateHRA_whole,
                         calculateTA_whole, calculateDA_whole, whole_0]]).
      apply whole_Math_round. }
  assert (Hp : whole (ugc_totalMonthly ugcSalary
                      + JS.Math_round (annualPremium / 12)))
    by (apply whole_plus; auto using whole_Math_round).
  unfold preTotal, resolveStrategy.
  destruct (methodComponents _ _ _ _ _ _ _ _ _) as [c b]. cbn in Hm.
  destruct s; cbn; auto.
  - apply whole_plus; auto using whole_Math_round.
  - destruct (JS.ge _ _); auto.
  - destruct (JS.le _ _); auto.
Qed.

(** On whole amounts the order of the two strategies survives the hard
    clamp, whatever the cap. *)
Lemma whole_inputs_keep_order (ugcSalary : UGCSalaryBreakdown)
    (mult annualPremium : Q) (m : MultiplierMethod) (benefits0 : Benefits)
    (daPercent : Q) (cityType : CityType) (level : string) (special : Q)
    (isTPTACity : bool) (hraConfig : option HraConfig)
    (mode : EnforcementMode) (pr : option PositionPremiumRange)
    (sc : option PositionSalaryCap) :
  whole (ugc_basic ugcSalary) -> whole (ugc_da ugcSalary) ->
  whole (ugc_ta ugcSalary) -> whole (ugc_totalMonthly ugcSalary) ->
  whole special ->
  (forall cfg, hraConfig = Some cfg -> whole (lumpSumValue cfg)) ->
  totalSalaryMonthly
    (calculateWPUSalary ugcSalary mult annualPremium lower m benefits0
       daPercent cityType level special isTPTACity hraConfig mode pr sc)
  <= totalSalaryMonthly
       (calculateWPUSalary ugcSalary mult annualPremium higher m benefits0
          daPercent cityType level special isTPTACity hraConfig mode pr sc).
Proof.
  intros Hb Hd Ht Htot Hs Hl. rewrite !run_total.
  apply applySalaryCap_monotone; [apply preTotal_lower_le_higher|].
  right. right. apply preTotal_whole; assumption.
Qed.

(** ** The comparison orchestrator *)

(** With a special allowance of -200000 the baseline total is -127160,
    not 0, and the premium percentage is 0 instead of the quotient. *)
Lemma premiumPercentage_negative_baseline_counterexample :
  let r :=
    calculateComparison "10" 0 0 Y 1 0 multiplier methodA housingOnly
      (-200000) false None soft None None in
  ugc_totalMonthly (ugc r) == -127160
  /\ ~ ugc_totalMonthly (ugc r) == 0
  /\ premiumAmountMonthly r == 1000
  /\ premiumPercentage r == 0
  /\ ~ premiumPercentage r
       == (premiumAmountMonthly r / ugc_totalMonthly (ugc r)) * 100.
Proof.
  vm_compute. repeat split; try reflexivity; intros H; discriminate H.
Qed.

(** C7, amended. The premium percentage is 0 whenever the baseline's
    monthly total is 0 or negative, and the quotient of the monthly premium
    amount by the baseline's monthly total, times 100, whenever that total
    is positive. *)
Theorem premiumPercentage_guard (level : string) (cellIndex : Z)
    (daPercent : Q) (cityType : CityType) (mult annualPremium : Q)
    (s : FinancialStrategy) (m : MultiplierMethod) (benefits0 : Benefits)
    (special : Q) (isTPTACity : bool) (hraConfig : option HraConfig)
    (mode : EnforcementMode) (pr : option PositionPremiumRange)
    (sc : option PositionSalaryCap) :
  let r :=
    calculateComparison level cellIndex daPercent cityType mult
      annualPremium s m benefits0 special isTPTACity hraConfig mode pr sc in
  (ugc_totalMonthly (ugc r) <= 0 -> premiumPercentage r = 0)
  /\ (0 < ugc_totalMonthly (ugc r) ->
      premiumPercentage r
      = (premiumAmountMonthly r / ugc_totalMonthly (ugc r)) * 100).
Proof.
  cbv zeta. unfold calculateComparison. cbn. split; intros H.
  - apply gt_false in H. rewrite H. reflexivity.
  - apply gt_true in H. rewrite H. reflexivity.
Qed.

Lemma premiumPercentage_guard_witness :
  premiumPercentage
    (calculateComparison "10" 0 0 Y 1 0 multiplier methodA housingOnly
       (-72840) false None soft None None) = 0
  /\ (let r :=
        calculateComparison "10" 0 58 Y 1 0 multiplier methodA housingOnly
          0 false None soft None None in
      premiumPercentage r
      = premiumAmountMonthly r / ugc_totalMonthly (ugc r) * 100).
Proof.
  split.
  - pose proof (premiumPercentage_guard "10" 0 0 Y 1 0 multiplier methodA
                  housingOnly (-72840) false None soft None None) as Hg.
    cbv zeta in Hg. destruct Hg as [Hz _].
    apply Hz. vm_compute. intros H. discriminate H.
  - pose proof (premiumPercentage_guard "10" 0 58 Y 1 0 multiplier methodA
                  housingOnly 0 false None soft None None) as Hg.
    cbv zeta in Hg. destruct Hg as [_ Hp]. cbv zeta.
    apply Hp. vm_compute. reflexivity.
Defined.

(** C9. In every result of the comparison the annual premium amount is
    twelve times the monthly one, and the monthly one is the enhanced
    monthly CTC minus the baseline's monthly total. *)
Theorem premium_amounts (level : string) (cellIndex : Z)
    (daPercent : Q) (cityType : CityType) (mult annualPremium : Q)
    (s : FinancialStrategy) (m : MultiplierMethod) (benefits0 : Benefits)
    (special : Q) (isTPTACity : bool) (hraConfig : option HraConfig)
    (mode : EnforcementMode) (pr : option PositionPremiumRange)
    (sc : option PositionSalaryCap) :
  let r :=
    calculateComparison level cellIndex daPercent cityType mult
      annualPremium s m benefits0 special isTPTACity hraConfig mode pr sc in
  premiumAmountAnnual r = premiumAmountMonthly r * 12
  /\ premiumAmountMonthly r
     = totalCTCMonthly (wpu r) - ugc_totalMonthly (ugc r).
Proof. split; reflexivity. Qed.

(** C10. Two comparisons that differ in the housing configuration only
    return the same baseline: it is the baseline computed with no housing
    configuration, so its HRA is in mode percent and is the city rate
    applied to the basic pay. *)
Theorem baseline_ignores_housing_config (level : string) (cellIndex : Z)
    (daPercent : Q) (cityType : CityType) (mult annualPremium : Q)
    (s : FinancialStrategy) (m : MultiplierMethod) (benefits0 : Benefits)
    (special : Q) (isTPTACity : bool) (hc1 hc2 : option HraConfig)
    (mode : EnforcementMode) (pr : option PositionPremiumRange)
    (sc : option PositionSalaryCap) :
  let r1 :=
    calculateComparison level cellIndex daPercent cityType mult
      annualPremium s m benefits0 special isTPTACity hc1 mode pr sc in
  let r2 :=
    calculateComparison level cellIndex daPercent cityType mult
      annualPremium s m benefits0 special isTPTACity hc2 mode pr sc in
  ugc r1 = ugc r2
  /\ ugc r1
     = calculateUGCSalary (getCellAmount level cellIndex) daPercent cityType
         level special isTPTACity None
  /\ ugc_hraMode (ugc r1) = mode_percent
  /\ ugc_hra (ugc r1)
     = JS.Math_round
         (getCellAmount level cellIndex * (HRA_RATES_rate cityType / 100)).
Proof.
  cbv zeta. unfold calculateComparison. cbn [ugc].
  split; [reflexivity|]. split; [reflexivity|].
  unfold calculateUGCSalary, calculateHRA.
  cbn [ugc_hraMode ugc_hra fst snd]. split; reflexivity.
Qed.

(** The housing configuration does reach the enhanced breakdown. *)
Example housing_config_changes_enhanced :
  let run hc :=
    calculateComparison "10" 0 58 Y (13 # 10) 300000 multiplier methodA
      zeroBenefits 0 false hc soft None None in
  hra (wpu (run None)) = 11540 /\ hraMode (wpu (run None)) = mode_percent
  /\ hra (wpu (run (Some lumpSumConfig))) = 5000
  /\ hraMode (wpu (run (Some lumpSumConfig))) = mode_lumpsum
  /\ ugc (run None) = ugc (run (Some lumpSumConfig)).
Proof. vm_compute. repeat split; reflexivity. Qed.

(** * Further properties of the code *)

(** ** The reference tables *)

(** A boolean check that holds of every entry of the pay matrix holds of
    every successful lookup. *)
Lemma map_forallb_lookup (m : gmap string (list Q))
    (f : string -> list Q -> bool) :
  forallb (fun kv => f (fst kv) (snd kv)) (map_to_list m) = true ->
  forall level cells, m !! level = Some cells -> f level cells = true.
Proof.
  intros Hall level cells Hl.
  rewrite forallb_forall in Hall.
  apply (Hall (level, cells)).
  apply list_elem_of_In, elem_of_map_to_list, Hl.
Qed.

Lemma PAY_MATRIX_forall (f : string -> list Q -> bool) :
  forallb (fun kv => f (fst kv) (snd kv)) (map_to_list PAY_MATRIX) = true ->
  forall level cells, PAY_MATRIX !! level = Some cells -> f level cells = true.
Proof. exact (map_forallb_lookup PAY_MATRIX f). Qed.

Lemma increasingb_adjacent (l : list Q) :
  increasingb l = true ->
  forall i, (S i < List.length l)%nat -> nth i l 0 < nth (S i) l 0.
Proof.
  induction l as [|a l IH]; intros Hinc i Hi; [simpl in Hi; lia|].
  destruct l as [|b r]; [simpl in Hi; lia|].
  cbn [increasingb] in Hinc. apply andb_true_iff in Hinc as [Hab Hrest].
  destruct i as [|i].
  - simpl. apply lt_true, Hab.
  - change (nth i (b :: r) 0 < nth (S i) (b :: r) 0).
    apply IH; [exact Hrest | simpl in *; lia].
Qed.

Lemma increasingb_nth (l : list Q) :
  increasingb l = true ->
  forall i j, (i < j)%nat -> (j < List.length l)%nat -> nth i l 0 < nth j l 0.
Proof.
  intros Hinc i j Hij. induction Hij as [|j Hij IH]; intros Hj.
  - apply increasingb_adjacent; assumption.
  - apply Qlt_trans with (nth j l 0); [apply IH; lia|].
    apply increasingb_adjacent; assumption.
Qed.

(** What the tables guarantee for every level of the pay matrix: the cells
    are non-empty, strictly increasing, and start at 57700 or more. *)
Lemma PAY_MATRIX_shape (level : string) (cells : list Q) :
  PAY_MATRIX !! level = Some cells ->
  (0 < List.length cells)%nat /\ increasingb cells = true
  /\ 57700 <= nth 0 cells 0.
Proof.
  intros Hl.
  pose proof (PAY_MATRIX_forall
                (fun _ cells =>
                   (0 <? List.length cells)%nat && increasingb cells
                   && Qle_bool 57700 (nth 0 cells 0))) as Hf.
  assert (Hchk : forallb
                   (fun kv : string * list Q =>
                      (0 <? List.length (snd kv))%nat && increasingb (snd kv)
                      && Qle_bool 57700 (nth 0 (snd kv) 0))
                   (map_to_list PAY_MATRIX) = true)
    by (vm_compute; reflexivity).
  specialize (Hf Hchk level cells Hl). cbv beta in Hf.
  apply andb_true_iff in Hf as [Hf H3]. apply andb_true_iff in Hf as [H1 H2].
  apply Nat.ltb_lt in H1. apply Qle_bool_iff in H3. auto.
Qed.

Lemma getCellAmount_nth (level : string) (cells : list Q) (i : Z) :
  PAY_MATRIX !! level = Some cells ->
  (0 <= i < Z.of_nat (List.length cells))%Z ->
  getCellAmount level i = nth (Z.to_nat i) cells 0.
Proof.
  intros Hl Hi.
  rewrite <- (Z2Nat.id i) at 1 by lia.
  apply getCellAmount_in_range; [exact Hl | lia].
Qed.

(** X1. Within a level of the pay matrix the basic pay strictly increases
    with the cell index, and every cell is at least 57700. *)
Theorem pay_matrix_strictly_increasing (level : string) (cells : list Q)
    (i j : Z) :
  PAY_MATRIX !! level = Some cells ->
  (0 <= i < j)%Z -> (j < Z.of_nat (List.length cells))%Z ->
  57700 <= getCellAmount level i
  /\ getCellAmount level i < getCellAmount level j.
Proof.
  intros Hl Hij Hj.
  destruct (PAY_MATRIX_shape level cells Hl) as (Hlen & Hinc & Hfirst).
  rewrite !(getCellAmount_nth level cells) by (assumption || lia).
  split.
  - destruct (Z.to_nat i) as [|n] eqn:Hn; [exact Hfirst|].
    apply Qle_trans with (nth 0 cells 0); [exact Hfirst|].
    apply Qlt_le_weak, increasingb_nth; [exact Hinc | lia | lia].
  - apply increasingb_nth; [exact Hinc | lia | lia].
Qed.

Lemma pay_matrix_strictly_increasing_witness :
  57700 <= getCellAmount "12" 1
  /\ getCellAmount "12" 1 < getCellAmount "12" 2.
Proof.
  apply (pay_matrix_strictly_increasing "12"
           [79800; 82200; 84100; 87200; 89800; 92500; 95300; 98200;
            101100; 104100; 107200; 110400; 113700; 117100; 120600; 124200;
            127900; 131700; 135700; 139800; 144000; 148300; 152700; 157300;
            162000; 166900; 171900; 177100; 182400; 187900; 193500; 199300;
            205300; 211500] 1 2).
  - vm_compute. reflexivity.
  - lia.
  - simpl. lia.
Defined.

Lemma getCellAmount_nonneg (level : string) (cellIndex : Z) :
  0 <= getCellAmount level cellIndex.
Proof.
  unfold getCellAmount.
  destruct (PAY_MATRIX !! level) as [cells|] eqn:Hl; [|apply Qle_refl].
  destruct ((cellIndex <? 0)%Z || (cellIndex >=? _)%Z) eqn:Hr;
    [apply Qle_refl|].
  apply orb_false_iff in Hr as [Hlo Hhi].
  apply Z.ltb_ge in Hlo. rewrite Z.geb_leb in Hhi. apply Z.leb_gt in Hhi.
  destruct (PAY_MATRIX_shape level cells Hl) as (Hlen & Hinc & Hfirst).
  destruct (Z.to_nat cellIndex) as [|n] eqn:Hn.
  - apply Qle_trans with 57700; [discriminate | exact Hfirst].
  - apply Qle_trans with (nth 0 cells 0).
    + apply Qle_trans with 57700; [discriminate | exact Hfirst].
    + apply Qlt_le_weak, increasingb_nth; [exact Hinc | lia | lia].
Qed.

(** ** Suggested cell *)

(** X2. For a level of the pay matrix, whatever the years of experience
    (negative, or beyond the ladder), the suggested cell is a valid index of
    that level, so the lookup at it is a real cell of at least 57700. *)
Theorem suggested_cell_is_valid (level : string) (cells : list Q) (years : Z) :
  PAY_MATRIX !! level = Some cells ->
  (0 <= suggestCellFromExperience level years
   < Z.of_nat (List.length cells))%Z
  /\ getCellAmount level (suggestCellFromExperience level years)
     = nth (Z.to_nat (suggestCellFromExperience level years)) cells 0
  /\ 57700 <= getCellAmount level (suggestCellFromExperience level years).
Proof.
  intros Hl.
  destruct (PAY_MATRIX_shape level cells Hl) as (Hlen & Hinc & Hfirst).
  assert (Hr : (0 <= suggestCellFromExperience level years
                < Z.of_nat (List.length cells))%Z).
  { unfold suggestCellFromExperience. rewrite Hl. cbv zeta. lia. }
  split; [exact Hr|]. split.
  - apply getCellAmount_nth; assumption.
  - rewrite (getCellAmount_nth level cells) by assumption.
    destruct (Z.to_nat _) as [|n] eqn:Hn; [exact Hfirst|].
    apply Qle_trans with (nth 0 cells 0); [exact Hfirst|].
    apply Qlt_le_weak, increasingb_nth; [exact Hinc | lia | lia].
Qed.

Lemma suggested_cell_is_valid_witness :
  57700 <= getCellAmount "15" (suggestCellFromExperience "15" 25)
  /\ 57700 <= getCellAmount "15" (suggestCellFromExperience "15" (-3)).
Proof.
  split.
  - eapply (suggested_cell_is_valid "15" _ 25). vm_compute. reflexivity.
  - eapply (suggested_cell_is_valid "15" _ (-3)). vm_compute. reflexivity.
Defined.

(** ** The cell list of a level *)

Lemma imap_lookup_row (cells : list Q) (i : nat) (row : CellRow) :
  imap (fun (idx : nat) (amount0 : Q) =>
          {| cell := Z.of_nat idx + 1;
             amount := amount0;
             experience :=
               (pretty idx ++ " yr"
                ++ (if (idx =? 1)%nat then "" else "s") ++ " exp")%string |})
    cells !! i = Some row ->
  cell row = (Z.of_nat i + 1)%Z /\ cells !! i = Some (amount row).
Proof.
  rewrite list_lookup_imap. destruct (cells !! i) as [a|]; simpl.
  - intros [= <-]. simpl. auto.
  - discriminate.
Qed.

Example cell_rows_labels :
  experience <$> take 3 (getCellsForLevel "15")
  = ["0 yrs exp"; "1 yr exp"; "2 yrs exp"]%string.
Proof. vm_compute. reflexivity. Qed.

(** ** Level metadata and the position catalogue *)



Lemma getCellAmount_past_end (level : string) (cells : list Q) (i : Z) :
  PAY_MATRIX !! level = Some cells ->
  (Z.of_nat (List.length cells) <= i)%Z ->
  getCellAmount level i = 0.
Proof.
  intros Hl Hi. unfold getCellAmount. rewrite Hl.
  apply Z.geb_le in Hi. rewrite Hi, orb_true_r. reflexivity.
Qed.

(** The metadata of every academic level agrees with the pay matrix. *)
Lemma ACADEMIC_LEVELS_shape (info : AcademicLevel) :
  In info ACADEMIC_LEVELS ->
  exists cells,
    PAY_MATRIX !! al_level info = Some cells
    /\ maxCells info = Z.of_nat (List.length cells)
    /\ rationalisedEntryPay info = nth 0 cells 0.
Proof.
  intros Hin. unfold ACADEMIC_LEVELS in Hin. simpl in Hin.
  repeat (destruct Hin as [<- | Hin];
          [eexists; split; [vm_compute; reflexivity|];
           split; vm_compute; reflexivity|]).
  contradiction.
Qed.

(** X5. [getLevelInfo] knows exactly the levels of the pay matrix, and the
    record it returns agrees with the matrix: it carries the level asked
    for, [maxCells] is the number of cells of the level (so the lookup at
    index [maxCells] is already out of range and gives 0), and
    [rationalisedEntryPay] is the amount of cell 0. *)
Theorem level_info_matches_matrix (level : string) :
  (getLevelInfo level = None <-> PAY_MATRIX !! level = None)
  /\ forall info : AcademicLevel,
       getLevelInfo level = Some info ->
       al_level info = level
       /\ (exists cells,
             PAY_MATRIX !! level = Some cells
             /\ maxCells info = Z.of_nat (List.length cells))
       /\ rationalisedEntryPay info = getCellAmount level 0
       /\ getCellAmount level (maxCells info) = 0.
Proof.
  assert (Hsome : forall info, getLevelInfo level = Some info ->
            al_level info = level
            /\ exists cells,
                 PAY_MATRIX !! level = Some cells
                 /\ maxCells info = Z.of_nat (List.length cells)
                 /\ rationalisedEntryPay info = nth 0 cells 0).
  { intros info Hfind. unfold getLevelInfo in Hfind.
    apply find_some in Hfind as [Hin Heq]. apply String.eqb_eq in Heq.
    split; [exact Heq|]. rewrite <- Heq. apply ACADEMIC_LEVELS_shape, Hin. }
  split.
  - split.
    + intros Hnone. destruct (PAY_MATRIX !! level) as [cells|] eqn:Hl;
        [|reflexivity].
      pose proof (PAY_MATRIX_forall
                    (fun level _ =>
                       match getLevelInfo level with
                       | Some _ => true
                       | None => false
                       end)) as Hf.
      assert (Hchk : forallb
                (fun kv : string * list Q =>
                   match getLevelInfo (fst kv) with
                   | Some _ => true
                   | None => false
                   end) (map_to_list PAY_MATRIX) = true)
        by (vm_compute; reflexivity).
      specialize (Hf Hchk level cells Hl). clear Hchk. cbv beta in Hf.
      rewrite Hnone in Hf. discriminate Hf.
    + intros Hnone. destruct (getLevelInfo level) as [info|] eqn:Hi;
        [|reflexivity].
      destruct (Hsome info eq_refl) as (_ & cells & Hl & _).
      rewrite Hl in Hnone. discriminate Hnone.
  - intros info Hfind.
    destruct (Hsome info Hfind) as (Hlev & cells & Hl & Hmax & Hentry).
    destruct (PAY_MATRIX_shape level cells Hl) as (Hlen & _ & _).
    split; [exact Hlev|]. split; [exists cells; auto|]. split.
    + rewrite (getCellAmount_nth level cells) by (assumption || lia).
      exact Hentry.
    + apply (getCellAmount_past_end level cells); [exact Hl | lia].
Qed.

Lemma level_info_matches_matrix_witness :
  getLevelInfo "9" = None
  /\ 131400 = getCellAmount "13A" 0
  /\ getCellAmount "13A" 18 = 0.
Proof.
  destruct (level_info_matches_matrix "9") as [[_ Hnone] _].
  destruct (level_info_matches_matrix "13A") as [_ Hinfo].
  destruct (Hinfo {| al_level := "13A"; al_agp := Some 9000;
                     payBand := "37,400-67,000"; entryPay := 49200;
                     rationalisedEntryPay := 131400; ior := 267 # 100;
                     maxCells := 18 |}) as (_ & _ & Hentry & Hend).
  - vm_compute. reflexivity.
  - split; [apply Hnone; vm_compute; reflexivity|].
    split; [exact Hentry | exact Hend].
Defined.

(** What the catalogue guarantees for each of its positions. *)
Lemma FACULTY_POSITIONS_shape (p : FacultyPosition) :
  In p FACULTY_POSITIONS ->
  (1 <= fp_id p <= 8)%Z
  /\ findPosition (fp_id p) = Some p
  /\ fp_minExperience p = 0%Z
  /\ 0 <= fp_specialAllowance p
  /\ whole (fp_specialAllowance p)
  /\ exists cells info,
       PAY_MATRIX !! fp_level p = Some cells
       /\ fp_maxExperience p = (Z.of_nat (List.length cells) - 1)%Z
       /\ getLevelInfo (fp_level p) = Some info
       /\ al_agp info = fp_agp p.
Proof.
  intros Hin. unfold FACULTY_POSITIONS in Hin. simpl in Hin.
  repeat (destruct Hin as [<- | Hin];
          [cbn [fp_id fp_minExperience fp_specialAllowance fp_level
                  fp_maxExperience fp_agp];
           split; [lia|]; split; [reflexivity|]; split; [reflexivity|];
           split; [discriminate|]; split; [apply whole_inject_Z|];
           eexists; eexists; split; [vm_compute; reflexivity|];
           split; [vm_compute; reflexivity|];
           split; vm_compute; reflexivity|]).
  contradiction.
Qed.



(** X7. Looking a position up by id succeeds exactly for the ids 1 to 8;
    it returns a catalogue entry with that id, and every catalogue entry is
    found under its own id (ids are unique). *)
Theorem findPosition_by_id (positionId : Z) :
  (findPosition positionId = None <-> ~ (1 <= positionId <= 8)%Z)
  /\ (forall p, findPosition positionId = Some p ->
        fp_id p = positionId /\ In p FACULTY_POSITIONS)
  /\ (forall p, In p FACULTY_POSITIONS -> findPosition (fp_id p) = Some p).
Proof.
  assert (Hsome : forall p, findPosition positionId = Some p ->
                    fp_id p = positionId /\ In p FACULTY_POSITIONS).
  { intros p Hfind. unfold findPosition in Hfind.
    apply find_some in Hfind as [Hin Heq]. apply Z.eqb_eq in Heq. auto. }
  split; [|split; [exact Hsome|]].
  - split.
    + intros Hnone Hr.
      assert (Hcases : positionId = 1%Z \/ positionId = 2%Z
                       \/ positionId = 3%Z \/ positionId = 4%Z
                       \/ positionId = 5%Z \/ positionId = 6%Z
                       \/ positionId = 7%Z \/ positionId = 8%Z) by lia.
      repeat (destruct Hcases as [-> | Hcases]; [discriminate Hnone|]).
      subst. discriminate Hnone.
    + intros Hout. destruct (findPosition positionId) as [p|] eqn:Hfind;
        [|reflexivity].
      destruct (Hsome p eq_refl) as [Hid Hin].
      destruct (FACULTY_POSITIONS_shape p Hin) as (Hr & _). lia.
  - intros p Hin. apply FACULTY_POSITIONS_shape, Hin.
Qed.

Lemma findPosition_by_id_witness :
  findPosition 9 = None
  /\ findPosition 0 = None.
Proof.
  destruct (findPosition_by_id 9) as [[_ H9] _].
  destruct (findPosition_by_id 0) as [[_ H0] _].
  split; [apply H9 | apply H0]; lia.
Defined.

(** ** The baseline calculator, further *)

Lemma Math_round_mono (x y : Q) : x <= y -> JS.Math_round x <= JS.Math_round y.
Proof.
  intros Hxy. unfold JS.Math_round. rewrite <- Zle_Qle.
  apply Qfloor_resp_le. lra.
Qed.

Lemma Math_round_comp (x y : Q) : x == y -> JS.Math_round x = JS.Math_round y.
Proof.
  intros Hxy. unfold JS.Math_round. f_equal. apply Qfloor_comp.
  rewrite Hxy. reflexivity.
Qed.

Lemma Math_round_nonneg (x : Q) : 0 <= x -> 0 <= JS.Math_round x.
Proof. intros Hx. apply (Math_round_mono 0 x Hx). Qed.

Lemma Math_round_zero (x : Q) : x == 0 -> JS.Math_round x = 0.
Proof. intros Hx. apply (Math_round_comp x 0 Hx). Qed.

Lemma percent_nonneg (b p : Q) : 0 <= b -> 0 <= p -> 0 <= b * (p / 100).
Proof.
  intros Hb Hp. apply Qmult_le_0_compat; [exact Hb|].
  apply Qle_shift_div_l; [reflexivity | lra].
Qed.

Lemma percent_mono (b1 b2 p : Q) :
  b1 <= b2 -> 0 <= p -> b1 * (p / 100) <= b2 * (p / 100).
Proof.
  intros Hb Hp. apply Qmult_le_compat_r; [exact Hb|].
  apply Qle_shift_div_l; [reflexivity | lra].
Qed.

Lemma Qmult_le_nonneg_l (b x y : Q) : 0 <= b -> x <= y -> b * x <= b * y.
Proof.
  intros Hb Hxy. rewrite !(Qmult_comm b).
  apply Qmult_le_compat_r; assumption.
Qed.

Lemma HRA_RATES_rate_pos (c : CityType) : 0 <= HRA_RATES_rate c.
Proof. destruct c; discriminate. Qed.

Lemma calculateDA_mono (b1 b2 p : Q) :
  b1 <= b2 -> 0 <= p -> calculateDA b1 p <= calculateDA b2 p.
Proof. intros Hb Hp. apply Math_round_mono, percent_mono; assumption. Qed.

Lemma calculateHRA_mono (b1 b2 : Q) (c : CityType) (hc : option HraConfig) :
  b1 <= b2 ->
  fst (calculateHRA b1 c hc) <= fst (calculateHRA b2 c hc).
Proof.
  intros Hb. unfold calculateHRA. cbv zeta.
  assert (Hp : JS.Math_round (b1 * (HRA_RATES_rate c / 100))
               <= JS.Math_round (b2 * (HRA_RATES_rate c / 100)))
    by (apply Math_round_mono, percent_mono;
        [exact Hb | apply HRA_RATES_rate_pos]).
  destruct hc as [cfg|]; [|exact Hp].
  destruct (providingHousing cfg && negb (stillProvideHra cfg));
    [apply Qle_refl|].
  destruct (cfg_hraMode cfg); [exact Hp | apply Qle_refl].
Qed.

(** The base amount of the transport allowance. *)
Lemma calculateTA_base (level : string) (p : Q) (tpta : bool) :
  exists taBase : Q,
    900 <= taBase
    /\ calculateTA level p tpta = taBase + JS.Math_round (taBase * (p / 100)).
Proof.
  unfold calculateTA. cbv zeta.
  destruct (JS.ge_int _ 9); [|destruct (JS.ge_int _ 3)]; destruct tpta;
    eexists; (split; [|reflexivity]); discriminate.
Qed.

Lemma calculateTA_ge_900 (level : string) (p : Q) (tpta : bool) :
  0 <= p -> 900 <= calculateTA level p tpta.
Proof.
  intros Hp. destruct (calculateTA_base level p tpta) as (b & Hb & ->).
  assert (0 <= JS.Math_round (b * (p / 100)))
    by (apply Math_round_nonneg, percent_nonneg; lra).
  lra.
Qed.

Lemma baseline_total_mono (b1 b2 p : Q) (c : CityType) (level : string)
    (special : Q) (tpta : bool) (hc : option HraConfig) :
  b1 < b2 -> 0 <= p ->
  ugc_totalMonthly (calculateUGCSalary b1 p c level special tpta hc)
  < ugc_totalMonthly (calculateUGCSalary b2 p c level special tpta hc).
Proof.
  intros Hb Hp. unfold calculateUGCSalary. cbn [ugc_totalMonthly].
  pose proof (calculateDA_mono b1 b2 p (Qlt_le_weak _ _ Hb) Hp).
  pose proof (calculateHRA_mono b1 b2 c hc (Qlt_le_weak _ _ Hb)).
  lra.
Qed.

(** X8. With a non-negative dearness percent, moving up the cells of a
    level strictly raises the baseline monthly total; DA and HRA never
    fall and TA stays the same, under any housing configuration. *)
Theorem baseline_rises_with_cell (level : string) (cells : list Q) (i j : Z)
    (p : Q) (c : CityType) (special : Q) (tpta : bool)
    (hc : option HraConfig) :
  PAY_MATRIX !! level = Some cells ->
  (0 <= i < j)%Z -> (j < Z.of_nat (List.length cells))%Z ->
  0 <= p ->
  let u k :=
    calculateUGCSalary (getCellAmount level k) p c level special tpta hc in
  ugc_totalMonthly (u i) < ugc_totalMonthly (u j)
  /\ ugc_da (u i) <= ugc_da (u j)
  /\ ugc_hra (u i) <= ugc_hra (u j)
  /\ ugc_ta (u i) = ugc_ta (u j).
Proof.
  intros Hl Hij Hj Hp. cbv zeta.
  assert (Hlt : getCellAmount level i < getCellAmount level j).
  { destruct (PAY_MATRIX_shape level cells Hl) as (_ & Hinc & _).
    rewrite !(getCellAmount_nth level cells) by (assumption || lia).
    apply increasingb_nth; [exact Hinc | lia | lia]. }
  split; [apply baseline_total_mono; assumption|].
  split; [apply calculateDA_mono; [apply Qlt_le_weak|]; assumption|].
  split; [apply calculateHRA_mono, Qlt_le_weak, Hlt | reflexivity].
Qed.

Lemma baseline_rises_with_cell_witness :
  ugc_totalMonthly
    (calculateUGCSalary (getCellAmount "10" 0) 58 Y "10" 0 false None)
  < ugc_totalMonthly
      (calculateUGCSalary (getCellAmount "10" 5) 58 Y "10" 0 false None).
Proof.
  eapply (baseline_rises_with_cell "10" _ 0 5 58 Y 0 false None).
  - vm_compute. reflexivity.
  - lia.
  - simpl. lia.
  - discriminate.
Defined.

(** X10. When the lookup gives 0 (unknown level, or cell out of range) the
    baseline of the comparison has basic pay, DA and HRA equal to 0, and its
    monthly total is the transport allowance plus the special allowance. *)
Theorem comparison_on_failed_lookup (level : string) (cellIndex : Z)
    (p : Q) (c : CityType) (mult annualPremium : Q)
    (s : FinancialStrategy) (m : MultiplierMethod) (benefits0 : Benefits)
    (special : Q) (tpta : bool) (hc : option HraConfig)
    (mode : EnforcementMode) (pr : option PositionPremiumRange)
    (sc : option PositionSalaryCap) :
  getCellAmount level cellIndex = 0 ->
  let r :=
    calculateComparison level cellIndex p c mult annualPremium s m
      benefits0 special tpta hc mode pr sc in
  ugc_basic (ugc r) = 0 /\ ugc_da (ugc r) = 0 /\ ugc_hra (ugc r) = 0
  /\ ugc_totalMonthly (ugc r) == calculateTA level p tpta + special.
Proof.
  intros Hzero. cbv zeta. unfold calculateComparison. cbn [ugc].
  rewrite Hzero. unfold calculateUGCSalary, calculateDA, calculateHRA.
  cbn [ugc_basic ugc_da ugc_hra ugc_totalMonthly fst snd].
  assert (Hd : JS.Math_round (0 * (p / 100)) = 0)
    by (apply Math_round_zero; ring).
  assert (Hh : JS.Math_round (0 * (HRA_RATES_rate c / 100)) = 0)
    by (apply Math_round_zero; ring).
  rewrite Hd, Hh. repeat split; try reflexivity. ring.
Qed.

Lemma comparison_on_failed_lookup_witness :
  ugc_totalMonthly
    (ugc (calculateComparison "10" 40 58 Y (13 # 10) 300000 multiplier
            methodA zeroBenefits 0 false None soft None None))
  == calculateTA "10" 58 false + 0.
Proof.
  apply (comparison_on_failed_lookup "10" 40 58 Y (13 # 10) 300000
           multiplier methodA zeroBenefits 0 false None soft None None).
  vm_compute. reflexivity.
Defined.

(** ** Transport and house-rent allowance *)

(** Every level of the pay matrix is in the top transport bracket. *)
Lemma PAY_MATRIX_levels_top_bracket (level : string) (cells : list Q) :
  PAY_MATRIX !! level = Some cells ->
  JS.ge_int (if String.eqb level "13A" then Some 13%Z else JS.parseInt level)
    9 = true.
Proof.
  intros Hl.
  apply (PAY_MATRIX_forall
           (fun level _ =>
              JS.ge_int
                (if String.eqb level "13A" then Some 13%Z
                 else JS.parseInt level) 9)
           (eq_refl : _ = true) level cells Hl).
Qed.

(** X11. The transport allowance of every level of the pay matrix is the
    top bracket's (7200 in a TPTA city, 3600 elsewhere, plus DA on it);
    level 13A is treated as level 13; and a level that [parseInt] cannot
    read as a number falls into the lowest bracket (1350 or 900). *)
Theorem transport_brackets (level : string) (p : Q) (tpta : bool) :
  (forall cells, PAY_MATRIX !! level = Some cells ->
     calculateTA level p tpta
     = (if tpta then 7200 else 3600)
       + JS.Math_round ((if tpta then 7200 else 3600) * (p / 100)))
  /\ calculateTA "13A" p tpta = calculateTA "13" p tpta
  /\ (level <> "13A"%string -> JS.parseInt level = None ->
      calculateTA level p tpta
      = (if tpta then 1350 else 900)
        + JS.Math_round ((if tpta then 1350 else 900) * (p / 100))).
Proof.
  split; [|split].
  - intros cells Hl. unfold calculateTA. cbv zeta.
    rewrite (PAY_MATRIX_levels_top_bracket level cells Hl).
    destruct tpta; reflexivity.
  - reflexivity.
  - intros Hne Hnan. unfold calculateTA. cbv zeta.
    destruct (String.eqb_spec level "13A") as [Heq|_]; [contradiction|].
    rewrite Hnan. cbn [JS.ge_int]. destruct tpta; reflexivity.
Qed.

Lemma transport_brackets_witness :
  calculateTA "15" 58 true = 7200 + JS.Math_round (7200 * (58 / 100))
  /\ calculateTA "level ten" 58 false
     = 900 + JS.Math_round (900 * (58 / 100)).
Proof.
  destruct (transport_brackets "15" 58 true) as (Htop & _ & _).
  destruct (transport_brackets "level ten" 58 false) as (_ & _ & Hnan).
  split.
  - eapply Htop. vm_compute. reflexivity.
  - apply Hnan; [discriminate | reflexivity].
Defined.

(** X12. With a non-negative dearness percent the transport allowance is
    at least 900, a TPTA city never gets less than another city, and a
    higher dearness percent never lowers it. *)
Theorem transport_allowance_order (level : string) (p q : Q) (tpta : bool) :
  0 <= p -> p <= q ->
  900 <= calculateTA level p tpta
  /\ calculateTA level p false <= calculateTA level p true
  /\ calculateTA level p tpta <= calculateTA level q tpta.
Proof.
  intros Hp Hpq. split; [apply calculateTA_ge_900, Hp|]. split.
  - unfold calculateTA. cbv zeta.
    destruct (JS.ge_int _ 9); [|destruct (JS.ge_int _ 3)];
      cbn [tptaCity otherCity level9Plus level3to8 level1to2 TA_RATES];
      match goal with
      | |- ?a + JS.Math_round (?a * _) <= ?b + JS.Math_round (?b * _) =>
          assert (Hab : a <= b) by discriminate;
          pose proof (Math_round_mono _ _ (percent_mono a b p Hab Hp))
      end; lra.
  - destruct (calculateTA_base level p tpta) as (b & Hb & Hp1).
    unfold calculateTA in *. cbv zeta in *.
    destruct (JS.ge_int _ 9); [|destruct (JS.ge_int _ 3)]; destruct tpta;
      cbn [tptaCity otherCity level9Plus level3to8 level1to2 TA_RATES];
      match goal with
      | |- ?a + JS.Math_round (?a * _) <= ?a + JS.Math_round (?a * _) =>
          assert (Hmono : JS.Math_round (a * (p / 100))
                          <= JS.Math_round (a * (q / 100)))
      end;
      try (apply Math_round_mono, Qmult_le_nonneg_l; [discriminate|];
           apply Qmult_le_compat_r; [exact Hpq | discriminate]);
      lra.
Qed.

Lemma transport_allowance_order_witness :
  900 <= calculateTA "10" 58 false
  /\ calculateTA "10" 58 false <= calculateTA "10" 58 true
  /\ calculateTA "10" 58 false <= calculateTA "10" 60 false.
Proof.
  apply (transport_allowance_order "10" 58 60 false); discriminate.
Defined.

(** X13. The mode of the house-rent allowance depends on the housing
    configuration only, not on the basic pay or the city; and for a
    non-negative basic pay the amount never decreases from city class Z to
    Y to X, nor when the basic pay grows. *)
Theorem hra_city_order (b b' : Q) (c c' : CityType) (hc : option HraConfig) :
  0 <= b -> b <= b' ->
  snd (calculateHRA b c hc) = snd (calculateHRA b' c' hc)
  /\ fst (calculateHRA b Z_city hc) <= fst (calculateHRA b Y hc)
  /\ fst (calculateHRA b Y hc) <= fst (calculateHRA b X hc)
  /\ fst (calculateHRA b c hc) <= fst (calculateHRA b' c hc).
Proof.
  intros Hb Hbb'.
  assert (Hzy : JS.Math_round (b * (10 / 100)) <= JS.Math_round (b * (20 / 100)))
    by (apply Math_round_mono, Qmult_le_nonneg_l; [exact Hb | discriminate]).
  assert (Hyx : JS.Math_round (b * (20 / 100)) <= JS.Math_round (b * (30 / 100)))
    by (apply Math_round_mono, Qmult_le_nonneg_l; [exact Hb | discriminate]).
  split; [|split; [|split; [|apply calculateHRA_mono, Hbb']]];
    unfold calculateHRA; cbv zeta;
    (destruct hc as [cfg|];
     [destruct (providingHousing cfg && negb (stillProvideHra cfg));
      [|destruct (cfg_hraMode cfg)]|]);
    cbn [fst snd HRA_RATES_rate];
    first [reflexivity | apply Qle_refl | assumption].
Qed.

Lemma hra_city_order_witness :
  fst (calculateHRA 57700 Z_city None) <= fst (calculateHRA 57700 Y None)
  /\ fst (calculateHRA 57700 Y None) <= fst (calculateHRA 57700 X None).
Proof.
  destruct (hra_city_order 57700 57700 Y Y None) as (_ & Hzy & Hyx & _);
    [discriminate | discriminate |].
  split; [exact Hzy | exact Hyx].
Defined.

(** ** The enhanced calculator, further *)

Lemma Math_round_le_whole (y z : Q) : whole z -> y <= z -> JS.Math_round y <= z.
Proof.
  intros Hw Hyz. rewrite <- (Math_round_whole z Hw).
  apply Math_round_mono, Hyz.
Qed.

Lemma Math_round_times_12 (x : Q) : JS.Math_round (x / 12) * 12 <= x + 6.
Proof.
  pose proof (Math_round_bounds (x / 12)) as [_ Hhi].
  assert (Hdiv : x / 12 * 12 == x) by field. lra.
Qed.

Section EnhancedMore.

Variables (ugcSalary : UGCSalaryBreakdown) (mult annualPremium : Q).
Variables (benefits0 : Benefits) (daPercent : Q) (cityType : CityType).
Variables (level : string) (special : Q) (isTPTACity : bool).
Variable hraConfig : option HraConfig.

Local Abbreviation run s m mode pr sc :=
  (calculateWPUSalary ugcSalary mult annualPremium s m benefits0 daPercent
     cityType level special isTPTACity hraConfig mode pr sc).
Local Abbreviation pre s m :=
  (preTotal ugcSalary mult annualPremium s m daPercent cityType level
     special isTPTACity hraConfig).
Local Abbreviation preC s m :=
  (preCTC ugcSalary mult annualPremium s m benefits0 daPercent cityType
     level special isTPTACity hraConfig).

(** X15. The result under strategy higher is, apart from the strategy
    tag, exactly the result under strategy multiplier when the multiplier
    total is at least the premium total, and exactly the result under
    strategy premium otherwise; strategy lower picks the other way round
    (the multiplier result on a tie in both cases).  This holds in either
    enforcement mode, with any range and cap. *)
Theorem higher_and_lower_pick_a_path (m : MultiplierMethod)
    (mode : EnforcementMode) (pr : option PositionPremiumRange)
    (sc : option PositionSalaryCap) :
  run higher m mode pr sc
  = withStrategy
      (run (if JS.ge (pre multiplier m) (pre premium m)
            then multiplier else premium) m mode pr sc) higher
  /\ run lower m mode pr sc
     = withStrategy
         (run (if JS.le (pre multiplier m) (pre premium m)
               then multiplier else premium) m mode pr sc) lower.
Proof.
  unfold preTotal, calculateWPUSalary, resolveStrategy, withStrategy.
  destruct (methodComponents _ _ _ _ _ _ _ _ _) as [c b].
  cbn [r_totalSalaryMonthly]. split.
  - destruct (JS.ge _ _); reflexivity.
  - destruct (JS.le _ _); reflexivity.
Qed.

(** X16. Before enforcement (so in soft mode) the monthly salaries of
    the five strategies are tied together: both is multiplier plus the
    monthly premium, higher and lower are the larger and the smaller of
    multiplier and premium, and so higher plus lower is multiplier plus
    premium. *)
Theorem strategy_totals_algebra (m : MultiplierMethod)
    (pr : option PositionPremiumRange) (sc : option PositionSalaryCap) :
  let total s := totalSalaryMonthly (run s m soft pr sc) in
  total both == total multiplier + JS.Math_round (annualPremium / 12)
  /\ total premium
     == ugc_totalMonthly ugcSalary + JS.Math_round (annualPremium / 12)
  /\ total higher == Qmax (total multiplier) (total premium)
  /\ total lower == Qmin (total multiplier) (total premium)
  /\ total higher + total lower == total multiplier + total premium.
Proof.
  cbv beta zeta.
  assert (Hsoft : forall s, totalSalaryMonthly (run s m soft pr sc) = pre s m).
  { intros s. unfold preTotal, calculateWPUSalary.
    destruct sc; reflexivity. }
  rewrite !Hsoft. unfold preTotal, resolveStrategy.
  destruct (methodComponents _ _ _ _ _ _ _ _ _) as [c b]. cbv zeta.
  cbn [r_totalSalaryMonthly].
  set (mr := wpuBasic c + wpuDA c + wpuHRA c + wpuTA c + special + b).
  set (p := ugc_totalMonthly ugcSalary + JS.Math_round (annualPremium / 12)).
  split; [reflexivity|]. split; [reflexivity|].
  destruct (JS.ge mr p) eqn:Hg; destruct (JS.le mr p) eqn:Hl;
    cbn [r_totalSalaryMonthly];
    try apply ge_true in Hg; try apply ge_false in Hg;
    try apply le_true in Hl; try apply le_false in Hl;
    (split; [|split]);
    first [ rewrite Q.max_l by lra; reflexivity
          | rewrite Q.max_r by lra; reflexivity
          | rewrite Q.min_l by lra; reflexivity
          | rewrite Q.min_r by lra; reflexivity
          | lra ].
Qed.

(** X17. A missing salary cap, or one whose three bounds are all 0 or
    negative, switches enforcement off: hard mode then returns exactly the
    soft-mode result, none of the three salary and CTC flags is set and the
    totals are the computed ones. *)
Theorem inactive_cap_means_no_enforcement (s : FinancialStrategy)
    (m : MultiplierMethod) (pr : option PositionPremiumRange)
    (sc : option PositionSalaryCap) :
  (forall cap, sc = Some cap ->
     minWPUSalaryAnnual cap <= 0 /\ maxWPUSalaryAnnual cap <= 0
     /\ maxWPUCTCAnnual cap <= 0) ->
  run s m hard pr sc = run s m soft pr sc
  /\ salaryCapped (enforcement (run s m hard pr sc)) = false
  /\ salaryBelowMin (enforcement (run s m hard pr sc)) = false
  /\ ctcCapped (enforcement (run s m hard pr sc)) = false
  /\ totalSalaryMonthly (run s m hard pr sc) = pre s m
  /\ totalCTCMonthly (run s m hard pr sc) = preC s m.
Proof.
  intros Hcap. unfold preTotal, preCTC, calculateWPUSalary.
  destruct sc as [cap|]; [|repeat split; reflexivity].
  destruct (Hcap cap eq_refl) as (Hmin & Hmax & Hctc).
  apply gt_false in Hmin, Hmax, Hctc.
  unfold applySalaryCap, computedMaxCTC. rewrite Hmin, Hmax, Hctc.
  cbn [andb]. assert (Hz : JS.gt 0 0 = false) by reflexivity.
  rewrite Hz. cbn [andb]. repeat split; reflexivity.
Qed.

(** X18. The enforcement mode touches the two totals only: every salary
    component, the line items, the benefits, four of the five flags and the
    recorded original totals are the same in hard and in soft mode, and a
    result flagged [ctcCapped] in soft mode is flagged in hard mode too. *)
Theorem mode_changes_totals_only (s : FinancialStrategy) (m : MultiplierMethod)
    (pr : option PositionPremiumRange) (sc : option PositionSalaryCap) :
  let h := run s m hard pr sc in
  let w := run s m soft pr sc in
  basic h = basic w /\ da h = da w /\ hra h = hra w
  /\ hraMode h = hraMode w /\ ta h = ta w
  /\ multiplierBonus h = multiplierBonus w
  /\ premiumMonthly h = premiumMonthly w
  /\ benefits h = benefits w
  /\ salaryCapped (enforcement h) = salaryCapped (enforcement w)
  /\ salaryBelowMin (enforcement h) = salaryBelowMin (enforcement w)
  /\ premiumBelowMin (enforcement h) = premiumBelowMin (enforcement w)
  /\ premiumAboveMax (enforcement h) = premiumAboveMax (enforcement w)
  /\ originalSalaryAnnual (enforcement h) = originalSalaryAnnual (enforcement w)
  /\ originalCTCAnnual (enforcement h) = originalCTCAnnual (enforcement w)
  /\ (ctcCapped (enforcement w) = true -> ctcCapped (enforcement h) = true).
Proof.
  cbv zeta. unfold calculateWPUSalary.
  destruct sc as [cap|]; [|cbn; repeat split; auto].
  unfold applySalaryCap.
  destruct (JS.gt (computedMaxCTC cap _) 0
            && JS.gt ((_ + _) * 12) (computedMaxCTC cap _));
    cbn; repeat split; auto.
Qed.

(** X19. In hard mode the returned annual salary never exceeds a positive
    maximum salary by more than 6, and the returned annual CTC never exceeds
    a positive effective CTC ceiling by more than 6, whether or not anything
    was clamped. *)
Theorem hard_mode_respects_caps (s : FinancialStrategy) (m : MultiplierMethod)
    (pr : option PositionPremiumRange) (cap : PositionSalaryCap) :
  let h := run s m hard pr (Some cap) in
  (0 < maxWPUSalaryAnnual cap ->
   totalSalaryAnnual h <= maxWPUSalaryAnnual cap + 6)
  /\ (0 < computedMaxCTC cap (benefits h) ->
      totalCTCAnnual h <= computedMaxCTC cap (benefits h) + 6).
Proof.
  cbv zeta. unfold calculateWPUSalary.
  cbn [totalSalaryAnnual totalCTCAnnual benefits].
  set (bb := calculateBenefits _ benefits0).
  set (t := r_totalSalaryMonthly _).
  split.
  - intros Hpos. rewrite applySalaryCap_salary.
    apply gt_true in Hpos. rewrite Hpos. cbn [andb].
    destruct (JS.gt (t * 12) _) eqn:Hc.
    + apply Math_round_times_12.
    + apply gt_false in Hc. lra.
  - intros Hpos. unfold applySalaryCap.
    apply gt_true in Hpos. rewrite Hpos. cbn [andb].
    match goal with
    | |- context [JS.gt ((?x + bb_totalMonthly bb) * 12)
                     (computedMaxCTC cap bb)] =>
        destruct (JS.gt ((x + bb_totalMonthly bb) * 12)
                    (computedMaxCTC cap bb)) eqn:Hc
    end; cbn [co_totalCTCMonthly].
    + apply Math_round_times_12.
    + apply gt_false in Hc. lra.
Qed.

(** X20. In hard mode a computed monthly salary that is a whole number is
    never raised: the returned monthly salary is at most the computed one. *)
Theorem hard_mode_never_raises (s : FinancialStrategy) (m : MultiplierMethod)
    (pr : option PositionPremiumRange) (sc : option PositionSalaryCap) :
  whole (pre s m) ->
  totalSalaryMonthly (run s m hard pr sc) <= pre s m.
Proof.
  intros Hw. rewrite run_total, applySalaryCap_salary.
  destruct sc as [cap|]; [|apply Qle_refl].
  destruct (JS.gt (maxWPUSalaryAnnual cap) 0 && JS.gt _ _) eqn:Hc;
    [|apply Qle_refl].
  apply andb_true_iff in Hc as [_ Hc]. apply gt_true in Hc.
  apply Math_round_le_whole; [exact Hw|].
  apply Qle_shift_div_r; [reflexivity | lra].
Qed.

(** X21. When the minimum of a range is not above its maximum, nothing is
    flagged on both sides: a salary is never both capped and below the
    minimum, a premium never both above the maximum and below the minimum. *)
Theorem flags_are_exclusive (s : FinancialStrategy) (m : MultiplierMethod)
    (mode : EnforcementMode) (range : PositionPremiumRange)
    (cap : PositionSalaryCap) :
  minWPUSalaryAnnual cap <= maxWPUSalaryAnnual cap ->
  minPremium range <= maxPremium range ->
  let e := enforcement (run s m mode (Some range) (Some cap)) in
  salaryCapped e && salaryBelowMin e = false
  /\ premiumAboveMax e && premiumBelowMin e = false.
Proof.
  intros Hcap Hrange. cbv zeta. unfold calculateWPUSalary.
  cbn [enforcement salaryCapped salaryBelowMin premiumAboveMax
         premiumBelowMin].
  split.
  - assert (Hflags : forall bb t c0,
              co_salaryCapped (applySalaryCap mode (Some cap) bb t c0)
              && co_salaryBelowMin (applySalaryCap mode (Some cap) bb t c0)
              = false).
    { intros bb t c0. rewrite applySalaryCap_capped.
      assert (Hb : co_salaryBelowMin (applySalaryCap mode (Some cap) bb t c0)
                   = JS.gt (minWPUSalaryAnnual cap) 0
                     && JS.lt (t * 12) (minWPUSalaryAnnual cap)).
      { destruct mode; [reflexivity|]. unfold applySalaryCap.
        destruct (JS.gt (computedMaxCTC cap bb) 0 && JS.gt _ _); reflexivity. }
      rewrite Hb.
      destruct (JS.gt (t * 12) (maxWPUSalaryAnnual cap)) eqn:H1;
        [|rewrite andb_false_r; reflexivity].
      destruct (JS.lt (t * 12) (minWPUSalaryAnnual cap)) eqn:H2;
        [|rewrite !andb_false_r; reflexivity].
      apply gt_true in H1. apply lt_true in H2. lra. }
    apply Hflags.
  - destruct (JS.gt annualPremium (maxPremium range)) eqn:H1;
      [|rewrite andb_false_r; reflexivity].
    destruct (JS.lt annualPremium (minPremium range)) eqn:H2;
      [|rewrite !andb_false_r; reflexivity].
    apply gt_true in H1. apply lt_true in H2. lra.
Qed.


(** X23. The returned monthly CTC is the returned monthly salary plus the
    monthly benefits total, except when the hard-mode CTC clamp fires: then
    the result is flagged [ctcCapped] and the monthly CTC is
    [Math.round] of a twelfth of the effective ceiling. *)
Theorem ctc_is_salary_plus_benefits (s : FinancialStrategy)
    (m : MultiplierMethod) (mode : EnforcementMode)
    (pr : option PositionPremiumRange) (sc : option PositionSalaryCap) :
  let w := run s m mode pr sc in
  totalCTCMonthly w = totalSalaryMonthly w + bb_totalMonthly (benefits w)
  \/ (mode = hard
      /\ ctcCapped (enforcement w) = true
      /\ exists cap,
           sc = Some cap
           /\ totalCTCMonthly w
              = JS.Math_round (computedMaxCTC cap (benefits w) / 12)).
Proof.
  cbv zeta. unfold calculateWPUSalary.
  cbn [totalCTCMonthly totalSalaryMonthly benefits enforcement ctcCapped].
  destruct sc as [cap|]; [|left; reflexivity].
  destruct mode; [left; reflexivity|].
  unfold applySalaryCap.
  destruct (JS.gt (computedMaxCTC cap _) 0
            && JS.gt ((_ + _) * 12) (computedMaxCTC cap _)).
  - right. split; [reflexivity|]. split; [reflexivity|].
    exists cap. split; reflexivity.
  - left. reflexivity.
Qed.

(** X24. Under method B and strategy multiplier the enhanced salary is the
    baseline calculator applied to the scaled basic pay
    [Math.round (basic x multiplier)] with the enhanced housing
    configuration: same basic, DA, HRA, HRA mode and TA, and before
    enforcement the same monthly total. *)
Theorem methodB_is_baseline_on_scaled_basic (mode : EnforcementMode)
    (pr : option PositionPremiumRange) (sc : option PositionSalaryCap) :
  let w := run multiplier methodB mode pr sc in
  let u :=
    calculateUGCSalary (JS.Math_round (ugc_basic ugcSalary * mult)) daPercent
      cityType level special isTPTACity hraConfig in
  basic w = ugc_basic u /\ da w = ugc_da u /\ hra w = ugc_hra u
  /\ hraMode w = ugc_hraMode u /\ ta w = ugc_ta u
  /\ multiplierBonus w = 0
  /\ pre multiplier methodB == ugc_totalMonthly u
  /\ originalSalaryAnnual (enforcement w) == ugc_totalAnnual u.
Proof.
  cbv zeta. unfold preTotal, calculateWPUSalary, resolveStrategy,
    methodComponents, calculateUGCSalary.
  cbn [basic da hra hraMode ta multiplierBonus r_totalSalaryMonthly
         r_components wpuBasic wpuDA wpuHRA c_hraMode wpuTA
         actualMultiplierBonus ugc_basic ugc_da ugc_hra ugc_hraMode ugc_ta
         ugc_totalMonthly ugc_totalAnnual enforcement originalSalaryAnnual].
  repeat split; try reflexivity; ring.
Qed.

End EnhancedMore.

Lemma inactive_cap_means_no_enforcement_witness :
  calculateWPUSalary scenario1 2 300000 both methodA zeroBenefits 58 Y "10"
    0 false None hard None (Some (salaryRange 0 0))
  = calculateWPUSalary scenario1 2 300000 both methodA zeroBenefits 58 Y
      "10" 0 false None soft None (Some (salaryRange 0 0)).
Proof.
  apply (inactive_cap_means_no_enforcement scenario1 2 300000 zeroBenefits
           58 Y "10" 0 false None both methodA None
           (Some (salaryRange 0 0))).
  intros cap [= <-]. cbn. repeat split; discriminate.
Defined.

Lemma mode_changes_totals_only_witness :
  ctcCapped
    (enforcement
       (calculateWPUSalary scenario1 2 0 multiplier methodA zeroBenefits 58
          Y "10" 0 false None hard None (Some cap2300000))) = true.
Proof.
  destruct (mode_changes_totals_only scenario1 2 0 zeroBenefits 58 Y "10" 0
              false None multiplier methodA None (Some cap2300000))
    as (_ & _ & _ & _ & _ & _ & _ & _ & _ & _ & _ & _ & _ & _ & Hctc).
  apply Hctc. vm_compute. reflexivity.
Defined.

Lemma hard_mode_respects_caps_witness :
  totalSalaryAnnual
    (calculateWPUSalary scenario1 2 0 multiplier methodA zeroBenefits 58 Y
       "10" 0 false None hard None (Some cap2300000))
  <= 2300000 + 6.
Proof.
  destruct (hard_mode_respects_caps scenario1 2 0 zeroBenefits 58 Y "10" 0
              false None multiplier methodA None cap2300000) as [Hs _].
  apply Hs. reflexivity.
Defined.

Lemma hard_mode_never_raises_witness :
  totalSalaryMonthly
    (calculateWPUSalary scenario1 2 0 multiplier methodA zeroBenefits 58 Y
       "10" 0 false None hard None (Some cap2300000))
  <= preTotal scenario1 2 0 multiplier methodA 58 Y "10" 0 false None.
Proof.
  apply (hard_mode_never_raises scenario1 2 0 zeroBenefits 58 Y "10" 0 false
           None multiplier methodA None (Some cap2300000)).
  exists 216788%Z. vm_compute. reflexivity.
Defined.

Lemma flags_are_exclusive_witness :
  let e :=
    enforcement
      (calculateWPUSalary scenario1 2 0 multiplier methodA zeroBenefits 58 Y
         "10" 0 false None soft
         (Some {| minPremium := 300000; maxPremium := 1200000 |})
         (Some cap2300000)) in
  salaryCapped e && salaryBelowMin e = false.
Proof.
  apply (flags_are_exclusive scenario1 2 0 zeroBenefits 58 Y "10" 0 false
           None multiplier methodA soft
           {| minPremium := 300000; maxPremium := 1200000 |} cap2300000);
    discriminate.
Defined.



(** ** The comparison, further *)

Lemma applySalaryCap_inactive (mode : EnforcementMode)
    (sc : option PositionSalaryCap) (bb : BenefitsBreakdown) (t c : Q) :
  mode = soft \/ sc = None ->
  co_totalSalaryMonthly (applySalaryCap mode sc bb t c) = t
  /\ co_totalCTCMonthly (applySalaryCap mode sc bb t c) = c.
Proof.
  intros [-> | ->]; [destruct sc | destruct mode]; split; reflexivity.
Qed.



(** X25. When the hard clamp is not in play, the monthly salary of the
    enhanced breakdown of a comparison is the sum of its line items (basic,
    DA, HRA, TA, special allowance, multiplier bonus, premium) under
    strategies multiplier and both, and under every strategy when the method
    is B or no housing configuration is supplied. *)
Theorem line_items_add_up (level : string) (cellIndex : Z)
    (p : Q) (c : CityType) (mult annualPremium : Q)
    (s : FinancialStrategy) (m : MultiplierMethod) (benefits0 : Benefits)
    (special : Q) (tpta : bool) (hc : option HraConfig)
    (mode : EnforcementMode) (pr : option PositionPremiumRange)
    (sc : option PositionSalaryCap) :
  mode = soft \/ sc = None ->
  s = multiplier \/ s = both \/ m = methodB \/ hc = None ->
  let w :=
    wpu (calculateComparison level cellIndex p c mult annualPremium s m
           benefits0 special tpta hc mode pr sc) in
  totalSalaryMonthly w
  == basic w + da w + hra w + ta w + specialAllowance w + multiplierBonus w
     + premiumMonthly w.
Proof.
  intros Hside Hcase. cbv zeta.
  unfold calculateComparison. cbn [wpu]. unfold calculateWPUSalary.
  cbn [basic da hra ta specialAllowance multiplierBonus premiumMonthly
         totalSalaryMonthly].
  match goal with
  | |- context [applySalaryCap mode sc ?bb ?t ?ctc] =>
      destruct (applySalaryCap_inactive mode sc bb t ctc Hside) as [Ht _];
      rewrite Ht
  end.
  unfold resolveStrategy, methodComponents, resetOnPremium,
    calculateUGCSalary.
  set (b := getCellAmount level cellIndex).
  destruct m.
  - (* method A *)
    cbn [ugc_basic ugc_da ugc_hra ugc_ta ugc_totalMonthly ugc_hraMode
           fst snd wpuBasic wpuDA wpuHRA wpuTA].
    assert (Hnone : hc = None ->
              fst (calculateHRA b c hc) = fst (calculateHRA b c None))
      by (intros ->; reflexivity).
    destruct s;
      try (destruct (JS.ge _ _));
      try (destruct (JS.le _ _));
      cbn [r_components r_totalSalaryMonthly actualMultiplierBonus
             actualPremiumMonthly wpuBasic wpuDA wpuHRA wpuTA];
      try ring;
      (destruct Hcase as [Hs | [Hs | [Hs | Hs]]];
       try discriminate Hs; rewrite (Hnone Hs); ring).
  - (* method B *)
    cbn [ugc_basic ugc_da ugc_hra ugc_ta ugc_totalMonthly ugc_hraMode
           fst snd wpuBasic wpuDA wpuHRA wpuTA].
    destruct s;
      try (destruct (JS.ge _ _));
      try (destruct (JS.le _ _));
      cbn [r_components r_totalSalaryMonthly actualMultiplierBonus
             actualPremiumMonthly wpuBasic wpuDA wpuHRA wpuTA];
      ring.
Qed.

Lemma line_items_add_up_witness :
  let w :=
    wpu (calculateComparison "10" 0 58 Y (13 # 10) 300000 higher methodA
           zeroBenefits 0 false None soft None None) in
  totalSalaryMonthly w
  == basic w + da w + hra w + ta w + specialAllowance w + multiplierBonus w
     + premiumMonthly w.
Proof.
  apply (line_items_add_up "10" 0 58 Y (13 # 10) 300000 higher methodA
           zeroBenefits 0 false None soft None None).
  - left. reflexivity.
  - right. right. right. reflexivity.
Defined.

(** Under method A with strategy premium and the default housing
    configuration (housing provided, no HRA) the line items do not add up:
    the total still contains the baseline's HRA. *)
Example line_items_gap_under_premium_methodA :
  let w :=
    wpu (calculateComparison "10" 0 58 Y (13 # 10) 300000 premium methodA
           zeroBenefits 0 false (Some DEFAULT_HRA_CONFIG) soft None None) in
  totalSalaryMonthly w == 133394
  /\ basic w + da w + hra w + ta w + specialAllowance w + multiplierBonus w
     + premiumMonthly w == 121854.
Proof. vm_compute. split; reflexivity. Qed.

(** ** The three tiers of benefits *)

(** X26. After [setBenefitsForPosition] the position reads back exactly
    the benefits that were set, with source 'position', whatever its level;
    every other position reads what it read before, and the level and
    global tiers are untouched. *)
Theorem benefits_override_round_trip (settings : GlobalSettings)
    (positionId other : Z) (b : Benefits) (level level' : string) :
  let settings' := setBenefitsForPosition positionId b settings in
  getBenefitsForPosition settings' positionId level = b
  /\ getBenefitsSource settings' positionId level = source_position
  /\ (other <> positionId ->
      getBenefitsForPosition settings' other level'
      = getBenefitsForPosition settings other level'
      /\ getBenefitsSource settings' other level'
         = getBenefitsSource settings other level')
  /\ levelBenefits settings' = levelBenefits settings
  /\ globalBenefits settings' = globalBenefits settings.
Proof.
  cbv zeta.
  unfold getBenefitsForPosition, getBenefitsSource, setBenefitsForPosition,
    withPositionBenefits.
  cbn [positionBenefits levelBenefits globalBenefits].
  rewrite lookup_insert_eq.
  split; [reflexivity|]. split; [reflexivity|].
  split; [|split; reflexivity].
  intros Hne. rewrite lookup_insert_ne by congruence. split; reflexivity.
Qed.

Lemma benefits_override_round_trip_witness :
  getBenefitsForPosition
    (setBenefitsForPosition 1 zeroBenefits DEFAULT_SETTINGS) 2 "11"
  = getBenefitsForPosition DEFAULT_SETTINGS 2 "11".
Proof.
  destruct (benefits_override_round_trip DEFAULT_SETTINGS 1 2 zeroBenefits
              "10" "11") as (_ & _ & Hother & _).
  apply Hother. lia.
Defined.

(** ** Bulk hiring totals *)






(** ** The position filter of the comparison page *)

(** X30. Toggling a position never leaves the set of visible positions
    empty; and toggling the same position twice gives back the set, unless
    the set was empty or the position was its only element. *)
Theorem toggle_keeps_one_visible (id0 : Z) (prev : gset Z) :
  togglePosition id0 prev <> ∅
  /\ (prev <> ∅ -> (id0 ∈ prev -> (1 < size prev)%nat) ->
      togglePosition id0 (togglePosition id0 prev) = prev).
Proof.
  unfold togglePosition. split.
  - destruct (decide (id0 ∈ prev)) as [Hin|Hnin].
    + destruct (decide (1 < size prev)%nat) as [Hsz|Hsz]; [|set_solver].
      intros Hempty.
      assert (Hsub : size (prev ∖ {[ id0 ]}) = (size prev - 1)%nat).
      { rewrite size_difference by set_solver.
        rewrite size_singleton. reflexivity. }
      rewrite Hempty, size_empty in Hsub. lia.
    + set_solver.
  - intros Hne Hsize.
    destruct (decide (id0 ∈ prev)) as [Hin|Hnin].
    + specialize (Hsize Hin).
      destruct (decide (1 < size prev)%nat) as [_|Hsz]; [|lia].
      destruct (decide (id0 ∈ prev ∖ {[ id0 ]})) as [Hbad|_]; [set_solver|].
      apply set_eq. intros x. rewrite elem_of_union, elem_of_difference,
        elem_of_singleton.
      destruct (decide (x = id0)) as [->|Hx]; tauto.
    + destruct (decide (id0 ∈ prev ∪ {[ id0 ]})) as [_|Hbad]; [|set_solver].
      assert (Hsz : (1 < size (prev ∪ {[ id0 ]}))%nat).
      { rewrite size_union by set_solver. rewrite size_singleton.
        assert (size prev <> 0%nat)
          by (intros H0; apply size_empty_iff in H0; set_solver).
        lia. }
      destruct (decide (1 < size (prev ∪ {[ id0 ]}))%nat) as [_|Hno];
        [|contradiction].
      set_solver.
Qed.

Lemma toggle_keeps_one_visible_witness :
  togglePosition 2 (togglePosition 2 {[ 1%Z; 2%Z ]}) = {[ 1%Z; 2%Z ]}.
Proof.
  apply toggle_keeps_one_visible.
  - set_solver.
  - intros _. rewrite size_union by set_solver. rewrite !size_singleton. lia.
Defined.
(** * Levels that name an inherited property *)

(** Where the level is one of the pay matrix's own keys, or no property
    of the object at all, the lookup through the prototype chain is the
    lookup in the own keys. *)
Lemma Proto_get_own {A : Type} (m : gmap string A) (name : string) (a : A) :
  m !! name = Some a -> Proto.get m name = Proto.own a.
Proof. intros H. unfold Proto.get. rewrite H. reflexivity. Qed.

Lemma Proto_get_not_inherited {A : Type} (m : gmap string A)
    (name : string) :
  Proto.Object_prototype name = None ->
  Proto.get m name
  = match m !! name with
    | Some a => Proto.own a
    | None => Proto.absent
    end.
Proof. intros H. unfold Proto.get. rewrite H. reflexivity. Qed.


(** No key of the pay matrix is the name of an inherited property. *)
Lemma PAY_MATRIX_keys_not_inherited (level : string) (cells : list Q) :
  PAY_MATRIX !! level = Some cells -> Proto.Object_prototype level = None.
Proof.
  intros Hl. unfold PAY_MATRIX in Hl.
  repeat (rewrite lookup_insert in Hl; case_decide;
          [subst level; vm_compute; reflexivity|]).
  rewrite lookup_empty in Hl. discriminate.
Qed.

(** Whenever the code's lookup returns a number, it is the number of the
    own-key lookup. *)
Lemma Proto_getCellAmount_number (level : string) (i : Z) (b : Q) :
  Proto.getCellAmount level i = Some b -> b = getCellAmount level i.
Proof.
  unfold Proto.getCellAmount, getCellAmount, Proto.get.
  destruct (PAY_MATRIX !! level) as [cells|].
  - destruct (_ || _); intros [= <-]; reflexivity.
  - destruct (Proto.Object_prototype level) as [[arity|]|].
    + destruct (_ || _); [intros [= <-]; reflexivity | discriminate].
    + destruct (i <? 0)%Z; [intros [= <-]; reflexivity | discriminate].
    + intros [= <-]; reflexivity.
Qed.

Lemma Proto_getCellAmount_not_inherited (level : string) (i : Z) :
  Proto.Object_prototype level = None ->
  Proto.getCellAmount level i = Some (getCellAmount level i).
Proof.
  intros H. unfold Proto.getCellAmount, getCellAmount, Proto.get.
  destruct (PAY_MATRIX !! level) as [cells|].
  - destruct (_ || _); reflexivity.
  - rewrite H. reflexivity.
Qed.

Lemma Proto_suggest_own (level : string) (cells : list Q) (years : Z) :
  PAY_MATRIX !! level = Some cells ->
  Proto.suggestCellFromExperience level years
  = Some (suggestCellFromExperience level years).
Proof.
  intros Hl.
  unfold Proto.suggestCellFromExperience, suggestCellFromExperience,
    Proto.get.
  rewrite Hl. reflexivity.
Qed.

(** C8. [getCellAmount] is meant to return 0 for a level that is not a
    key of the pay matrix, but the matrix is an object literal read with
    [PAY_MATRIX[level]], so a level that names a property of
    [Object.prototype] finds that property: at level ["constructor"] and
    cell 0, and at level ["__proto__"] and any cell from 0 on, the function
    returns [undefined], not 0, although neither level is a key of the pay
    matrix.  For every level that names no inherited property the
    specified behaviour holds: the result is 0 when the level is not a key, when the cell index
    is negative, or when it is at least the number of cells; a negative
    index gives 0 at every level; and [undefined] is returned only at the
    inherited names. *)
Theorem getCellAmount_undefined_on_inherited_level :
  (PAY_MATRIX !! "constructor"%string = None
   /\ Proto.getCellAmount "constructor" 0 = None)
  /\ (PAY_MATRIX !! "__proto__"%string = None
      /\ Proto.getCellAmount "__proto__" 7 = None)
  /\ (forall (level : string) (cellIndex : Z),
        Proto.Object_prototype level = None ->
        PAY_MATRIX !! level = None
        \/ (cellIndex < 0)%Z
        \/ (exists cells : list Q,
              PAY_MATRIX !! level = Some cells
              /\ (Z.of_nat (List.length cells) <= cellIndex)%Z) ->
        Proto.getCellAmount level cellIndex = Some 0)
  /\ (forall (level : string) (cellIndex : Z),
        (cellIndex < 0)%Z -> Proto.getCellAmount level cellIndex = Some 0)
  /\ (forall (level : string) (cellIndex : Z),
        Proto.getCellAmount level cellIndex = None ->
        PAY_MATRIX !! level = None
        /\ Proto.Object_prototype level <> None
        /\ (0 <= cellIndex)%Z).
Proof.
  split; [split; vm_compute; reflexivity|].
  split; [split; vm_compute; reflexivity|].
  split; [|split].
  - intros level cellIndex Hproto Hcases.
    unfold Proto.getCellAmount, Proto.get. rewrite Hproto.
    destruct Hcases as [Hnone | [Hneg | (cells & Hsome & Hlen)]].
    + rewrite Hnone. reflexivity.
    + destruct (PAY_MATRIX !! level) as [cells|]; [|reflexivity].
      apply Z.ltb_lt in Hneg. rewrite Hneg. reflexivity.
    + rewrite Hsome.
      apply Z.geb_le in Hlen. rewrite Hlen, orb_true_r. reflexivity.
  - intros level cellIndex Hneg. apply Z.ltb_lt in Hneg.
    unfold Proto.getCellAmount, Proto.get.
    destruct (PAY_MATRIX !! level) as [cells|];
      [rewrite Hneg; reflexivity|].
    destruct (Proto.Object_prototype level) as [[arity|]|];
      rewrite ?Hneg; reflexivity.
  - intros level cellIndex.
    unfold Proto.getCellAmount, Proto.get.
    destruct (PAY_MATRIX !! level) as [cells|].
    + destruct (_ || _); discriminate.
    + destruct (Proto.Object_prototype level) as [[arity|]|].
      * destruct (cellIndex <? 0)%Z eqn:Hneg; [discriminate|].
        intros _. apply Z.ltb_ge in Hneg.
        split; [reflexivity | split; [discriminate | exact Hneg]].
      * destruct (cellIndex <? 0)%Z eqn:Hneg; [discriminate|].
        intros _. apply Z.ltb_ge in Hneg.
        split; [reflexivity | split; [discriminate | exact Hneg]].
      * discriminate.
Qed.

Lemma getCellAmount_undefined_on_inherited_level_witness :
  Proto.getCellAmount "9" 0 = Some 0
  /\ Proto.getCellAmount "10" (-1) = Some 0
  /\ Proto.getCellAmount "15" 8 = Some 0
  /\ Proto.getCellAmount "toString" (-4) = Some 0.
Proof.
  destruct getCellAmount_undefined_on_inherited_level
    as (_ & _ & Hzero & Hneg & _).
  split; [|split; [|split]].
  - apply Hzero; [vm_compute; reflexivity|].
    left. vm_compute. reflexivity.
  - apply Hzero; [vm_compute; reflexivity|]. right. left. lia.
  - apply Hzero; [vm_compute; reflexivity|]. right. right.
    eexists. split; [vm_compute; reflexivity | simpl; lia].
  - apply Hneg. lia.
Defined.

(** The lookup at the remaining inherited names: a method of arity 1
    gives [undefined] at cell 0 and 0 from cell 1 on; a method without
    parameters gives 0 at every cell. *)
Example getCellAmount_on_inherited_methods :
  Proto.getCellAmount "hasOwnProperty" 0 = None
  /\ Proto.getCellAmount "hasOwnProperty" 1 = Some 0
  /\ Proto.getCellAmount "__defineGetter__" 1 = None
  /\ Proto.getCellAmount "toString" 0 = Some 0
  /\ Proto.getCellAmount "10" 0 = Some 57700.
Proof. vm_compute. repeat split; reflexivity. Qed.



(** X4. For a level of the pay matrix [getCellsForLevel] returns the cells
    of the level in order: as many rows as cells, row [i] numbered [i + 1],
    its amount being what [getCellAmount] returns at index [i], that is at
    the cell number minus 1.  A level that is no property of the matrix
    object gets the empty list; a level that names an inherited property
    raises a [TypeError], because the value found has no [map]. *)
Theorem cell_rows_match_lookup (level : string) :
  match Proto.get PAY_MATRIX level with
  | Proto.own cells =>
      exists rows : list CellRow,
        Proto.getCellsForLevel level = Some rows
        /\ List.length rows = List.length cells
        /\ forall (i : nat) (row : CellRow),
             rows !! i = Some row ->
             cell row = (Z.of_nat i + 1)%Z
             /\ Proto.getCellAmount level (Z.of_nat i) = Some (amount row)
             /\ Proto.getCellAmount level (cell row - 1) = Some (amount row)
  | Proto.absent => Proto.getCellsForLevel level = Some []
  | Proto.inherited _ => Proto.getCellsForLevel level = None
  end.
Proof.
  unfold Proto.getCellsForLevel.
  destruct (Proto.get PAY_MATRIX level) as [cells| |] eqn:Hget;
    [|reflexivity|reflexivity].
  assert (Hl : PAY_MATRIX !! level = Some cells).
  { unfold Proto.get in Hget.
    destruct (PAY_MATRIX !! level) as [cells'|].
    - injection Hget as ->. reflexivity.
    - destruct (Proto.Object_prototype level); discriminate Hget. }
  eexists. split; [reflexivity|]. split; [apply length_imap|].
  intros i row Hrow. apply imap_lookup_row in Hrow as [Hc Ha].
  assert (Hi : (i < List.length cells)%nat)
    by (apply lookup_lt_Some in Ha; exact Ha).
  assert (Hamt : Proto.getCellAmount level (Z.of_nat i) = Some (amount row)).
  { rewrite (Proto_getCellAmount_not_inherited level)
      by (exact (PAY_MATRIX_keys_not_inherited level cells Hl)).
    rewrite (getCellAmount_in_range level cells i Hl Hi).
    f_equal. apply nth_lookup_Some with (d := 0) in Ha. exact Ha. }
  split; [exact Hc|]. split; [exact Hamt|].
  rewrite Hc. replace (Z.of_nat i + 1 - 1)%Z with (Z.of_nat i) by lia.
  exact Hamt.
Qed.

Lemma cell_rows_match_lookup_witness :
  cell {| cell := 2; amount := 59400; experience := "1 yr exp" |} = 2%Z
  /\ Proto.getCellAmount "10" 1 = Some 59400
  /\ Proto.getCellsForLevel "9" = Some []
  /\ Proto.getCellsForLevel "constructor" = None.
Proof.
  pose proof (cell_rows_match_lookup "10") as H10.
  pose proof (cell_rows_match_lookup "9") as H9.
  pose proof (cell_rows_match_lookup "constructor") as Hc.
  eassert (Hg : Proto.get PAY_MATRIX "10" = Proto.own _)
    by (vm_compute; reflexivity).
  rewrite Hg in H10. destruct H10 as (rows & Hrows & _ & Hrow).
  injection Hrows as <-.
  destruct (Hrow 1%nat {| cell := 2; amount := 59400;
                          experience := "1 yr exp" |}) as (Hcell & Ha & _).
  - vm_compute. reflexivity.
  - split; [exact Hcell|]. split; [exact Ha|].
    split; [exact H9 | exact Hc].
Defined.

(** X9. Where the lookup of the cell returns a number (every level except
    the names of inherited properties, and those too at a negative cell
    index), the baseline of the comparison is computed on that number, and
    with a non-negative dearness percent and special allowance its monthly
    total is at least 900 (the transport allowance alone); so the guard of
    the premium percentage is not taken and the percentage is the
    quotient.  Amounts are exact rationals here. *)
Theorem comparison_percentage_is_quotient (level : string) (cellIndex : Z)
    (p : Q) (c : CityType) (mult annualPremium : Q)
    (s : FinancialStrategy) (m : MultiplierMethod) (benefits0 : Benefits)
    (special : Q) (tpta : bool) (hc : option HraConfig)
    (mode : EnforcementMode) (pr : option PositionPremiumRange)
    (sc : option PositionSalaryCap) :
  Proto.getCellAmount level cellIndex <> None ->
  0 <= p -> 0 <= special ->
  let r :=
    calculateComparison level cellIndex p c mult annualPremium s m
      benefits0 special tpta hc mode pr sc in
  Proto.getCellAmount level cellIndex = Some (ugc_basic (ugc r))
  /\ 900 <= ugc_totalMonthly (ugc r)
  /\ premiumPercentage r
     = premiumAmountMonthly r / ugc_totalMonthly (ugc r) * 100.
Proof.
  intros Hnum Hp Hs. cbv zeta.
  split.
  { destruct (Proto.getCellAmount level cellIndex) as [b|] eqn:Hb;
      [|contradiction].
    apply Proto_getCellAmount_number in Hb. rewrite Hb. reflexivity. }
  clear Hnum.
  assert (Htot : 900 <= ugc_totalMonthly
                          (calculateUGCSalary (getCellAmount level cellIndex)
                             p c level special tpta None)).
  { unfold calculateUGCSalary. cbn [ugc_totalMonthly].
    pose proof (getCellAmount_nonneg level cellIndex) as Hb.
    pose proof (calculateTA_ge_900 level p tpta Hp).
    assert (0 <= calculateDA (getCellAmount level cellIndex) p)
      by (apply Math_round_nonneg, percent_nonneg; assumption).
    assert (0 <= fst (calculateHRA (getCellAmount level cellIndex) c None))
      by (apply Math_round_nonneg, percent_nonneg;
          [assumption | apply HRA_RATES_rate_pos]).
    lra. }
  split; [exact Htot|].
  unfold calculateComparison. cbn [premiumPercentage ugc premiumAmountMonthly].
  assert (Hgt : JS.gt (ugc_totalMonthly
                         (calculateUGCSalary (getCellAmount level cellIndex)
                            p c level special tpta None)) 0 = true)
    by (apply gt_true; lra).
  rewrite Hgt. reflexivity.
Qed.

Lemma comparison_percentage_is_quotient_witness :
  Proto.getCellAmount "nope" 3 <> None
  /\ 900 <= ugc_totalMonthly
              (ugc (calculateComparison "nope" 3 58 Z_city (13 # 10) 300000
                      multiplier methodA zeroBenefits 0 false None soft None
                      None)).
Proof.
  assert (Hnum : Proto.getCellAmount "nope" 3 <> None)
    by (vm_compute; discriminate).
  split; [exact Hnum|].
  apply (comparison_percentage_is_quotient "nope" 3 58 Z_city (13 # 10)
           300000 multiplier methodA zeroBenefits 0 false None soft None
           None Hnum); discriminate.
Defined.

(** At the level ["constructor"] and cell 0 the lookup returns [undefined];
    the hypothesis of the theorem above excludes it. *)
Example comparison_lookup_undefined :
  Proto.getCellAmount "constructor" 0 = None
  /\ Proto.getCellAmount "constructor" (-1) = Some 0.
Proof. vm_compute. split; reflexivity. Qed.

(** X27. After [clearPositionBenefits] the position reads what
    [settings.levelBenefits[level]] holds: the benefits of its level when
    the level is a key, the global benefits when the level is no property
    of the object, and the inherited value itself when the level names a
    property of [Object.prototype]; its source is never 'position', and it
    is 'global' exactly when the level is no property.  Clearing an
    override that was set on a position without one restores the settings
    exactly.  With the default settings every catalogue position reads its
    level's entry with source 'level', and the level ["constructor"] reads
    the inherited function [Object], also with source 'level'. *)
Theorem benefits_clear_falls_back (settings : GlobalSettings)
    (positionId : Z) (b : Benefits) (level : string) :
  let cleared := clearPositionBenefits positionId settings in
  Proto.getBenefitsForPosition cleared positionId level
  = match Proto.get (levelBenefits settings) level with
    | Proto.own lb => Proto.benefits_bundle lb
    | Proto.inherited i => Proto.inherited_value i
    | Proto.absent => Proto.benefits_bundle (globalBenefits settings)
    end
  /\ Proto.getBenefitsSource cleared positionId level <> source_position
  /\ (Proto.getBenefitsSource cleared positionId level = source_global
      <-> Proto.get (levelBenefits settings) level = Proto.absent)
  /\ (positionBenefits settings !! positionId = None ->
      clearPositionBenefits positionId
        (setBenefitsForPosition positionId b settings) = settings)
  /\ (forall pos, In pos FACULTY_POSITIONS ->
      Proto.getBenefitsSource DEFAULT_SETTINGS (fp_id pos) (fp_level pos)
      = source_level
      /\ exists lb : Benefits,
           DEFAULT_LEVEL_BENEFITS !! fp_level pos = Some lb
           /\ Proto.getBenefitsForPosition DEFAULT_SETTINGS (fp_id pos)
                (fp_level pos)
              = Proto.benefits_bundle lb)
  /\ (Proto.getBenefitsForPosition DEFAULT_SETTINGS 1 "constructor"
      = Proto.inherited_value (Proto.inherited_function 1)
      /\ Proto.getBenefitsSource DEFAULT_SETTINGS 1 "constructor"
         = source_level).
Proof.
  cbv zeta.
  unfold Proto.getBenefitsForPosition, Proto.getBenefitsSource,
    clearPositionBenefits, setBenefitsForPosition, withPositionBenefits.
  cbn [positionBenefits levelBenefits globalBenefits].
  rewrite lookup_delete_eq.
  split; [reflexivity|]. split; [|split; [|split; [|split]]].
  - destruct (Proto.get (levelBenefits settings) level); discriminate.
  - destruct (Proto.get (levelBenefits settings) level);
      split; first [discriminate | reflexivity].
  - intros Hnone. rewrite delete_insert_eq, (delete_id _ _ Hnone).
    destruct settings; reflexivity.
  - intros pos Hin. unfold FACULTY_POSITIONS in Hin. simpl in Hin.
    repeat (destruct Hin as [<- | Hin];
            [split; [vm_compute; reflexivity|];
             eexists; split; vm_compute; reflexivity|]).
    contradiction.
  - split; vm_compute; reflexivity.
Qed.

Lemma benefits_clear_falls_back_witness :
  clearPositionBenefits 3
    (setBenefitsForPosition 3 zeroBenefits DEFAULT_SETTINGS)
  = DEFAULT_SETTINGS.
Proof.
  destruct (benefits_clear_falls_back DEFAULT_SETTINGS 3 zeroBenefits "12")
    as (_ & _ & _ & Hrestore & _).
  apply Hrestore. vm_compute. reflexivity.
Defined.

(** * The engine in binary64 *)

(** ** Integers are exact *)












(** ** The hard clamp *)

(** C2. The settings dialog and the project notes describe hard mode as
    capping the salary at the configured maximum, and the specification
    has the clamped annual salary equal [maxWPUSalaryAnnual] exactly.  The code
    clamps the monthly figure to [Math.round (max / 12)] and reports twelve
    times that: with the default cap of 2300000 and scenario 1 under
    multiplier 2 (2601456 a year before the clamp) the result is flagged
    [salaryCapped], its monthly salary is 191667 and its annual salary is
    2300004, which is still above the cap of 2300000; the same holds for a
    salary computed at exactly 2600000 a year, and for the computation in
    binary64. *)
Theorem hard_cap_overshoots_maximum :
  let w :=
    calculateWPUSalary scenario1 2 0 multiplier methodA zeroBenefits 58 Y
      "10" 0 false None hard None (Some cap2300000) in
  let w26 :=
    calculateWPUSalary baseline2600000 1 0 premium methodA zeroBenefits 0 Y
      "10" 0 false None hard None (Some cap2300000) in
  let d :=
    Double.calculateWPUSalary Double.scenario1 (Double.of_Z 2) Double.zero
      multiplier methodA Double.zeroBenefits (Double.of_Z 58) Y "10"
      Double.zero false None hard None (Some Double.cap2300000) in
  (originalSalaryAnnual (enforcement w) == 2601456
   /\ salaryCapped (enforcement w) = true
   /\ totalSalaryMonthly w == 191667
   /\ totalSalaryAnnual w == 2300004
   /\ ~ totalSalaryAnnual w == maxWPUSalaryAnnual cap2300000
   /\ JS.gt (totalSalaryAnnual w) (maxWPUSalaryAnnual cap2300000) = true)
  /\ (originalSalaryAnnual (enforcement w26) == 2600000
      /\ salaryCapped (enforcement w26) = true
      /\ totalSalaryMonthly w26 == 191667
      /\ totalSalaryAnnual w26 == 2300004
      /\ ~ totalSalaryAnnual w26 == maxWPUSalaryAnnual cap2300000
      /\ JS.gt (totalSalaryAnnual w26) (maxWPUSalaryAnnual cap2300000)
         = true)
  /\ (Double.value (Double.originalSalaryAnnual (Double.enforcement d))
      = Some 2601456
      /\ Double.salaryCapped (Double.enforcement d) = true
      /\ Double.value (Double.totalSalaryMonthly d) = Some 191667
      /\ Double.value (Double.totalSalaryAnnual d) = Some 2300004
      /\ Double.value (Double.maxWPUSalaryAnnual Double.cap2300000)
         = Some 2300000
      /\ Double.gt (Double.totalSalaryAnnual d)
           (Double.maxWPUSalaryAnnual Double.cap2300000) = true).
Proof.
  vm_compute. repeat split; try reflexivity; intros H; discriminate H.
Qed.

(** ** Rounding *)






(** Evaluations of the rounding steps in binary64: the dearness and
    house-rent allowances of scenario 1, the bonus at multiplier 1.3, the
    monthly premium of 300000 a year, and the clamped monthly salary at the
    default cap. *)
Example rounding_steps_evaluated :
  let w :=
    Double.calculateWPUSalary Double.scenario1 (Double.of_ratio 13 10)
      (Double.of_Z 300000) both methodA Double.zeroBenefits (Double.of_Z 58)
      Y "10" Double.zero false None hard None (Some Double.cap2300000) in
  Double.value (Double.ugc_da Double.scenario1) = Some 33466
  /\ Double.value (Double.ugc_hra Double.scenario1) = Some 11540
  /\ Double.value (Double.ugc_totalMonthly Double.scenario1) = Some 108394
  /\ Double.value (Double.multiplierBonus w) = Some 32518
  /\ Double.value (Double.premiumMonthly w) = Some 25000
  /\ Double.salaryCapped (Double.enforcement w) = false
  /\ Double.value (Double.totalSalaryMonthly w) = Some 165912.
Proof. vm_compute. repeat split; reflexivity. Qed.
